(** * Invoice totals and validation (generator/invoices.py)

    A shallow embedding of [moneyfmt], [compute_totals],
    [validate_invoice_data] and the item loop of [generate_invoice],
    together with the part of Python's [decimal] module they run on.

    Modelling choices, all taken from the source:
    - a [Decimal] is a sign, a non-negative coefficient and an exponent, or
      an infinity, or a NaN; arithmetic happens in the default context
      (28 significant digits, ROUND_HALF_EVEN, Emax 999999, Emin -999999,
      traps InvalidOperation / DivisionByZero / Overflow), which is the
      context the module never changes;
    - Python objects are values of [pyval]; a dict is an object in a store,
      reached through its address, so that the in-place updates of
      [validate_invoice_data] and [compute_totals] and any aliasing between
      items are visible;
    - a raised exception ends the computation and keeps the store as it was
      at the raise.

    Limits of the model: text is ASCII (the decimal module also reads the
    digits of other scripts); a float is carried as the text [str] prints
    for it, the only operation [compute_totals] applies to it; exponents are
    unbounded integers where the C implementation stops at 10^18. *)

From Stdlib Require Import ZArith Lia Bool Ascii String.
From stdpp Require Import base strings list gmap fin_maps.

Local Open Scope Z_scope.

(** ** Exceptions and results *)

Inductive exn : Type :=
| ValueError (msg : string)
| TypeError
| AttributeError
| KeyError (key : string)
| InvalidOperation          (* decimal.InvalidOperation *)
| Overflow.                 (* decimal.Overflow *)

Inductive result (A : Type) : Type :=
| Ok (a : A)
| Err (e : exn).
Arguments Ok {A} a.
Arguments Err {A} e.

Definition rbind {A B} (r : result A) (f : A -> result B) : result B :=
  match r with
  | Ok a => f a
  | Err e => Err e
  end.

(** ** The decimal module *)

Module PyDecimal.

(** [DFin sg c e] is (-1)^sg * c * 10^e. *)
Inductive Decimal : Type :=
| DFin (sign : bool) (coeff : N) (exp : Z)
| DInf (sign : bool)
| DNaN (sign : bool) (signaling : bool) (payload : N).
Arguments DFin sign coeff%_N exp%_Z.
Arguments DNaN sign signaling payload%_N.

(** A finite decimal from a coefficient computed in Z. *)
Definition finite (sg : bool) (c e : Z) : Decimal := DFin sg (Z.to_N c) e.

(** The default context. *)
Definition prec : Z := 28.
Definition Emax : Z := 999999.
Definition Emin : Z := -999999.
Definition Etiny : Z := Emin - prec + 1.
Definition Etop : Z := Emax - prec + 1.

(** [len(str(c))]: the number of decimal digits of [c], 1 for 0. *)
Fixpoint ndigits_aux (fuel : nat) (c : Z) : Z :=
  match fuel with
  | O => 1
  | S f => if c <? 10 then 1 else 1 + ndigits_aux f (c / 10)
  end.

Definition ndigits (c : Z) : Z := ndigits_aux (Z.to_nat (Z.log2 c)) c.

(** ROUND_HALF_EVEN on the quotient [q] and remainder [r] of a division by
    [10^k]: up when the discarded part is above one half, or is exactly
    one half and [q] is odd. *)
Definition round_half_even (q r k : Z) : bool :=
  (10 ^ k <? 2 * r) || ((2 * r =? 10 ^ k) && Z.odd q).

(** ROUND_HALF_UP: up when the first discarded digit is 5 or more. *)
Definition round_half_up (r k : Z) : bool := 10 ^ k <=? 2 * r.

(** [Decimal._fix]: round a finite result to the context. *)
Definition fix_ (sg : bool) (c e : Z) : result Decimal :=
  if c =? 0 then Ok (finite sg 0 (Z.min (Z.max e Etiny) Emax))
  else
    let exp_min := ndigits c + e - prec in
    if Etop <? exp_min then Err Overflow
    else
      let exp_min := Z.max exp_min Etiny in
      if e <? exp_min then
        let k := exp_min - e in
        let q := c / 10 ^ k in
        let r := c mod 10 ^ k in
        let coeff := if round_half_even q r k then q + 1 else q in
        let '(coeff, exp_min) :=
          if prec <? ndigits coeff then (coeff / 10, exp_min + 1)
          else (coeff, exp_min) in
        if Etop <? exp_min then Err Overflow
        else Ok (finite sg coeff exp_min)
      else Ok (finite sg c e).

(** [Decimal._fix_nan]: a payload keeps its last [prec] digits. *)
Definition fix_nan (sg : bool) (p : N) : Decimal :=
  DNaN sg false (Z.to_N (Z.of_N p mod 10 ^ prec)).

(** [Decimal._check_nans]: a signaling NaN raises, a quiet one is the
    result; [None] when neither operand is a NaN. *)
Definition check_nans (a b : Decimal) : option (result Decimal) :=
  match a, b with
  | DNaN _ true _, _ => Some (Err InvalidOperation)
  | _, DNaN _ true _ => Some (Err InvalidOperation)
  | DNaN sg false p, _ => Some (Ok (fix_nan sg p))
  | _, DNaN sg false p => Some (Ok (fix_nan sg p))
  | _, _ => None
  end.

(** [Decimal.__mul__] *)
Definition mul (a b : Decimal) : result Decimal :=
  match check_nans a b with
  | Some r => r
  | None =>
      match a, b with
      | DFin s1 c1 e1, DFin s2 c2 e2 =>
          fix_ (xorb s1 s2) (Z.of_N c1 * Z.of_N c2) (e1 + e2)
      | DInf s1, DFin s2 c2 _ =>
          if (c2 =? 0)%N then Err InvalidOperation else Ok (DInf (xorb s1 s2))
      | DFin s1 c1 _, DInf s2 =>
          if (c1 =? 0)%N then Err InvalidOperation else Ok (DInf (xorb s1 s2))
      | DInf s1, DInf s2 => Ok (DInf (xorb s1 s2))
      | _, _ => Err InvalidOperation
      end
  end.

Definition signed (sg : bool) (c : Z) : Z := if sg then - c else c.

(** [Decimal.__add__]: the exact sum at the smaller exponent, rounded to
    the context.  A zero sum is negative only when both operands are
    negative zeros. *)
Definition add (a b : Decimal) : result Decimal :=
  match check_nans a b with
  | Some r => r
  | None =>
      match a, b with
      | DFin s1 c1 e1, DFin s2 c2 e2 =>
          let e := Z.min e1 e2 in
          let v := signed s1 (Z.of_N c1 * 10 ^ (e1 - e))
                   + signed s2 (Z.of_N c2 * 10 ^ (e2 - e)) in
          let sg := if v =? 0
                    then (c1 =? 0)%N && (c2 =? 0)%N && s1 && s2
                    else v <? 0 in
          fix_ sg (Z.abs v) e
      | DInf s1, DInf s2 =>
          if Bool.eqb s1 s2 then Ok (DInf s1) else Err InvalidOperation
      | DInf s1, _ => Ok (DInf s1)
      | _, DInf s2 => Ok (DInf s2)
      | _, _ => Err InvalidOperation
      end
  end.

(** [Decimal._rescale(exp, ROUND_HALF_UP)] on a non-zero coefficient:
    the coefficient at exponent [target]. *)
Definition rescale_half_up (c e target : Z) : Z :=
  if target <=? e then c * 10 ^ (e - target)
  else
    let k := target - e in
    let q := c / 10 ^ k in
    if round_half_up (c mod 10 ^ k) k then q + 1 else q.

(** [d.quantize(Decimal('0.01'), rounding=ROUND_HALF_UP)] *)
Definition quantize (d : Decimal) : result Decimal :=
  match d with
  | DNaN _ true _ => Err InvalidOperation
  | DNaN sg false p => Ok (fix_nan sg p)
  | DInf _ => Err InvalidOperation
  | DFin sg c e =>
      let c := Z.of_N c in
      if c =? 0 then fix_ sg 0 (-2)
      else
        let adjusted := e + ndigits c - 1 in
        if Emax <? adjusted then Err InvalidOperation
        else if prec <? adjusted - (-2) + 1 then Err InvalidOperation
        else
          let ans := rescale_half_up c e (-2) in
          if Emax <? (-2) + ndigits ans - 1 then Err InvalidOperation
          else if prec <? ndigits ans then Err InvalidOperation
          else fix_ sg ans (-2)
  end.

(** *** Numeric strings *)

Definition code (a : ascii) : Z := Z.of_N (Ascii.N_of_ascii a).

(** Whitespace that [str.strip] removes. *)
Definition is_space (a : ascii) : bool :=
  let n := code a in
  ((9 <=? n) && (n <=? 13)) || ((28 <=? n) && (n <=? 32)).

Definition digit_of (a : ascii) : option Z :=
  let n := code a in
  if (48 <=? n) && (n <=? 57) then Some (n - 48) else None.

Definition lower (a : ascii) : ascii :=
  let n := code a in
  if (65 <=? n) && (n <=? 90) then Ascii.ascii_of_N (Z.to_N (n + 32)) else a.

Fixpoint lstrip (l : list ascii) : list ascii :=
  match l with
  | a :: r => if is_space a then lstrip r else l
  | [] => []
  end.

Definition strip (l : list ascii) : list ascii :=
  rev (lstrip (rev (lstrip l))).

Definition is_underscore (a : ascii) : bool := code a =? 95.

Definition drop_underscores (l : list ascii) : list ascii :=
  List.filter (fun a => negb (is_underscore a)) l.

(** The longest prefix of digits: its value on top of [acc], its length
    on top of [n], and what follows. *)
Fixpoint take_digits (acc n : Z) (l : list ascii) : Z * Z * list ascii :=
  match l with
  | a :: r =>
      match digit_of a with
      | Some d => take_digits (10 * acc + d) (n + 1) r
      | None => (acc, n, l)
      end
  | [] => (acc, n, [])
  end.

Definition take_sign (l : list ascii) : bool * list ascii :=
  match l with
  | a :: r =>
      if code a =? 45 then (true, r)
      else if code a =? 43 then (false, r)
      else (false, l)
  | [] => (false, [])
  end.

Definition is_e (a : ascii) : bool := (code a =? 101) || (code a =? 69).

(** digits [. digits] [E [sign] digits], with a digit before the
    exponent. *)
Definition parse_number (sg : bool) (l : list ascii) : option Decimal :=
  let '(ip, ni, r1) := take_digits 0 0 l in
  let '(c, nf, r2) :=
    match r1 with
    | a :: r => if code a =? 46 then take_digits ip 0 r else (ip, 0, r1)
    | [] => (ip, 0, r1)
    end in
  if ni + nf =? 0 then None
  else
    match r2 with
    | [] => Some (finite sg c (- nf))
    | a :: r3 =>
        if is_e a then
          let '(esg, r4) := take_sign r3 in
          let '(ev, ne, r5) := take_digits 0 0 r4 in
          if ne =? 0 then None
          else
            match r5 with
            | [] => Some (finite sg c (signed esg ev - nf))
            | _ :: _ => None
            end
        else None
    end.

Definition payload_of (l : list ascii) : option N :=
  match take_digits 0 0 l with
  | (p, _, []) => Some (Z.to_N p)
  | _ => None
  end.

(** Inf, Infinity, NaN and sNaN with an optional payload, in any case. *)
Definition parse_special (sg : bool) (l : list ascii) : option Decimal :=
  let s := string_of_list_ascii (map lower l) in
  if String.eqb s "inf" || String.eqb s "infinity" then Some (DInf sg)
  else
    match map lower (take 3 l), map lower (take 4 l) with
    | ["n"; "a"; "n"]%char, _ => DNaN sg false <$> payload_of (drop 3 l)
    | _, ["s"; "n"; "a"; "n"]%char => DNaN sg true <$> payload_of (drop 4 l)
    | _, _ => None
    end.

(** [Decimal(s)] for a string [s]. *)
Definition from_string (s : string) : result Decimal :=
  let l := drop_underscores (strip (list_ascii_of_string s)) in
  let '(sg, l) := take_sign l in
  match parse_special sg l with
  | Some d => Ok d
  | None =>
      match parse_number sg l with
      | Some d => Ok d
      | None => Err InvalidOperation
      end
  end.

(** [Decimal(n)] for an int [n]. *)
Definition from_int (n : Z) : Decimal := finite (n <? 0) (Z.abs n) 0.

(** [a == b] on decimals that are not signaling NaNs: numeric equality,
    false as soon as one side is a NaN. *)
Definition eq (a b : Decimal) : bool :=
  match a, b with
  | DFin s1 c1 e1, DFin s2 c2 e2 =>
      let e := Z.min e1 e2 in
      signed s1 (Z.of_N c1 * 10 ^ (e1 - e))
      =? signed s2 (Z.of_N c2 * 10 ^ (e2 - e))
  | DInf s1, DInf s2 => Bool.eqb s1 s2
  | _, _ => false
  end.

End PyDecimal.
Import PyDecimal.

(** ** Python values and the store *)

Definition addr : Type := positive.

(** The objects the module handles.  A dict is an object of the store and is
    named by its address; the other values are immutable.  [PFloat] carries
    the text [str] prints for the float ("0.0", "10.005", "1e-05", "inf"). *)
#[warnings="-register-all"]
Inductive pyval : Type :=
| PNone
| PBool (b : bool)
| PInt (n : Z)
| PFloat (repr : string)
| PStr (s : string)
| PDec (d : Decimal)
| PList (l : list pyval)
| PTuple (l : list pyval)
| PRef (a : addr).

Abbreviation pydict := (gmap string pyval).
Abbreviation store := (gmap addr pydict).

(** What a computation leaves: a value or a raised exception, and the store. *)
Inductive outcome (A : Type) : Type :=
| Ret (a : A) (s : store)
| Raise (e : exn) (s : store).
Arguments Ret {A} a s.
Arguments Raise {A} e s.

Definition M (A : Type) : Type := store -> outcome A.

#[export] Instance M_ret : MRet M := fun A a s => Ret a s.
#[export] Instance M_bind : MBind M := fun A B f m s =>
  match m s with
  | Ret a s' => f a s'
  | Raise e s' => Raise e s'
  end.

Definition raise {A} (e : exn) : M A := fun s => Raise e s.

Definition lift {A} (r : result A) : M A :=
  match r with
  | Ok a => mret a
  | Err e => raise e
  end.

(** The dict at an address. *)
Definition deref (s : store) (a : addr) : pydict := s !!! a.

(** The store after [k] of the dict at [a] is set to [x]. *)
Definition set_field (s : store) (a : addr) (k : string) (x : pyval) : store :=
  <[a := <[k := x]> (deref s a)]> s.

(** [v.get(k, dflt)]; only a dict has the method. *)
Definition py_get (v : pyval) (k : string) (dflt : pyval) : M pyval :=
  match v with
  | PRef a => fun s => Ret (default dflt (deref s a !! k)) s
  | _ => raise AttributeError
  end.

(** [v[k] = x] for a string key [k]. *)
Definition py_setitem (v : pyval) (k : string) (x : pyval) : M unit :=
  match v with
  | PRef a => fun s => Ret tt (set_field s a k x)
  | _ => raise TypeError
  end.

(** [k in data], [data[k]] and [data.setdefault(k, v)] on a dict. *)
Definition dict_contains (data : addr) (k : string) : M bool :=
  fun s => Ret (bool_decide (is_Some (deref s data !! k))) s.

Definition dict_getitem (data : addr) (k : string) : M pyval :=
  fun s =>
    match deref s data !! k with
    | Some v => Ret v s
    | None => Raise (KeyError k) s
    end.

Definition dict_setdefault (data : addr) (k : string) (v : pyval) : M unit :=
  fun s =>
    match deref s data !! k with
    | Some _ => Ret tt s
    | None => Ret tt (set_field s data k v)
    end.

(** [Decimal(str(v))].  [str] of an int is its numeral and [str] of a
    Decimal reads back as the same Decimal; [str] of None, of a bool and of
    a list, tuple or dict ("None", "True", "[...", "(...", "{...") is not a
    numeric string. *)
Definition Decimal_of_str (v : pyval) : result Decimal :=
  match v with
  | PStr s => from_string s
  | PFloat r => from_string r
  | PInt n => Ok (from_int n)
  | PDec d => Ok d
  | PNone => from_string "None"
  | PBool b => from_string (if b then "True" else "False")
  | PList _ | PTuple _ | PRef _ => Err InvalidOperation
  end.

(** ** generator/invoices.py *)

(** What the host provides: the exact binary value of a float,
    [Decimal((sign, digits, exponent))], [locale.currency] ([None] where it
    raises), and the layout library's [Paragraph] and header blocks, which
    read the record and may raise. *)
Record host : Type := {
  float_exact : string -> Decimal;
  from_sequence : list pyval -> result Decimal;
  locale_currency : Decimal -> option string;
  flowable : Type;
  Paragraph : pyval -> result flowable;
  layout_header : store -> addr -> option exn
}.

Section Invoices.

Variable H : host.

(** [Decimal(v)] *)
Definition Decimal_new (v : pyval) : result Decimal :=
  match v with
  | PDec d => Ok d
  | PInt n => Ok (from_int n)
  | PBool b => Ok (from_int (if b then 1 else 0))
  | PStr s => from_string s
  | PFloat r => Ok (float_exact H r)
  | PList l | PTuple l => from_sequence H l
  | PNone | PRef _ => Err TypeError
  end.

(** The digits of a non-negative integer, most significant first. *)
Fixpoint digits_aux (fuel : nat) (n : Z) (acc : list ascii) : list ascii :=
  match fuel with
  | O => acc
  | S f =>
      let acc := Ascii.ascii_of_N (Z.to_N (48 + n mod 10)) :: acc in
      if n <? 10 then acc else digits_aux f (n / 10) acc
  end.

Definition digits (n : Z) : list ascii :=
  digits_aux (S (Z.to_nat (Z.log2 n))) n [].

(** A comma before every group of three digits counted from the right. *)
Fixpoint group3 (rev_digits : list ascii) : list ascii :=
  match rev_digits with
  | a :: b :: c :: ((_ :: _) as r) => a :: b :: c :: ","%char :: group3 r
  | l => l
  end.

(** [f"{amt:,}"] for a quantized amount. *)
Definition format_grouped (amt : Decimal) : string :=
  match amt with
  | DFin sg c _ =>
      let c := Z.of_N c in
      let frac := digits (c mod 100) in
      string_of_list_ascii
        ((if sg then ["-"%char] else [])
           ++ rev (group3 (rev (digits (c / 100))))
           ++ "."%char :: (if c mod 100 <? 10 then "0"%char :: frac else frac))
  | DInf sg => (if sg then "-Infinity" else "Infinity")%string
  | DNaN sg _ p =>
      string_of_list_ascii
        ((if sg then ["-"%char] else [])
           ++ list_ascii_of_string "NaN"
           ++ (if (p =? 0)%N then [] else digits (Z.of_N p)))
  end.

(** def moneyfmt(amount) *)
Definition moneyfmt (amount : pyval) : result string :=
  match rbind (Decimal_new amount) quantize with
  | Err _ => Err (ValueError "Amount must be numeric")
  | Ok amt =>
      match locale_currency H amt with
      | Some text => Ok text
      | None => Ok ("$" +:+ format_grouped amt)
      end
  end.

(** The [for it in items] loop of [compute_totals]. *)
Fixpoint compute_lines (items : list pyval) (subtotal : Decimal) : M Decimal :=
  match items with
  | [] => mret subtotal
  | it :: rest =>
      q ← py_get it "qty" (PInt 0);
      qty ← lift (Decimal_of_str q);
      u ← py_get it "unit_price" (PStr "0.00");
      unit ← lift (Decimal_of_str u);
      line ← lift (rbind (mul qty unit) quantize);
      py_setitem it "_line_total" (PDec line);;
      subtotal ← lift (add subtotal line);
      compute_lines rest subtotal
  end.

(** def compute_totals(items, tax_rate) *)
Definition compute_totals (items : list pyval) (tax_rate : pyval)
  : M (Decimal * Decimal * Decimal) :=
  subtotal ← compute_lines items (DFin false 0 (-2));
  subtotal ← lift (quantize subtotal);
  rate ← lift (Decimal_of_str tax_rate);
  tax ← lift (rbind (mul subtotal rate) quantize);
  total ← lift (rbind (add subtotal tax) quantize);
  mret (subtotal, tax, total).

Definition required : list string :=
  ["invoice_number"; "date"; "bill_to"; "items"]%string.

(** The [for k in required] loop of [validate_invoice_data]. *)
Fixpoint check_required (data : addr) (ks : list string) : M unit :=
  match ks with
  | [] => mret tt
  | k :: rest =>
      present ← dict_contains data k;
      if present : bool then check_required data rest
      else raise (ValueError ("Missing required invoice field: " +:+ k))
  end.

Definition isinstance_list (v : pyval) : bool :=
  match v with
  | PList _ => true
  | _ => false
  end.

(** def validate_invoice_data(data) *)
Definition validate_invoice_data (data : addr) : M addr :=
  check_required data required;;
  items ← dict_getitem data "items";
  if isinstance_list items then
    dict_setdefault data "tax_rate" (PFloat "0.0");;
    dict_setdefault data "due_date" PNone;;
    dict_setdefault data "notes" (PStr "");;
    mret data
  else raise (ValueError "items must be a list").

(** Where a row of the items table takes its line total from. *)
Inductive line_source : Type :=
| Cached
| Recomputed.

Record row : Type := {
  row_desc : flowable H;
  row_qty : pyval;
  row_unit : string;
  row_line : string;
  row_source : line_source
}.

(** The body of the [for it in items] loop of [generate_invoice]. *)
Definition table_row (it : pyval) : M row :=
  desc ← py_get it "description" (PStr "");
  qty ← py_get it "qty" (PInt 0);
  unit ← py_get it "unit_price" (PInt 0);
  line_total ← py_get it "_line_total" PNone;
  '(src, line_total) ←
    match line_total with
    | PNone =>
        q ← lift (Decimal_of_str qty);
        u ← lift (Decimal_of_str unit);
        p ← lift (mul q u);
        mret (Recomputed, PDec p)
    | v => mret (Cached, v)
    end;
  para ← lift (Paragraph H desc);
  unit_text ← lift (moneyfmt unit);
  line_text ← lift (moneyfmt line_total);
  mret {| row_desc := para; row_qty := qty; row_unit := unit_text;
          row_line := line_text; row_source := src |}.

Fixpoint table_rows (items : list pyval) : M (list row) :=
  match items with
  | [] => mret []
  | it :: rest =>
      r ← table_row it;
      rs ← table_rows rest;
      mret (r :: rs)
  end.

Definition list_items (v : pyval) : list pyval :=
  match v with
  | PList l => l
  | _ => []
  end.

(** def generate_invoice(invoice_data, filename), up to the item rows of
    the table; the totals rows, the notes and the build that follow are
    the layout library's. *)
Definition generate_invoice (invoice_data : addr) : M (list row) :=
  invoice_data ← validate_invoice_data invoice_data;
  items ← dict_getitem invoice_data "items";
  tax_rate ← py_get (PRef invoice_data) "tax_rate" (PFloat "0.0");
  totals ← compute_totals (list_items items) tax_rate;
  (fun s => match layout_header H s invoice_data with
            | Some e => Raise e s
            | None => Ret tt s
            end);;
  table_rows (list_items items).

End Invoices.

(** ** Views of the code *)

(** The three [setdefault] calls of [validate_invoice_data], run one after
    the other. *)
Definition normalize (data : addr) : M addr :=
  dict_setdefault data "tax_rate" (PFloat "0.0");;
  dict_setdefault data "due_date" PNone;;
  dict_setdefault data "notes" (PStr "");;
  mret data.

(** What [compute_totals] reads from an item, with the defaults of its two
    [get] calls, and the line total it derives. *)
Definition item_qty (d : pydict) : pyval := default (PInt 0) (d !! "qty"%string).

Definition item_unit_price (d : pydict) : pyval :=
  default (PStr "0.00") (d !! "unit_price"%string).

Definition line_of (d : pydict) : result Decimal :=
  rbind (Decimal_of_str (item_qty d)) (fun qty =>
  rbind (Decimal_of_str (item_unit_price d)) (fun unit =>
  rbind (mul qty unit) quantize)).

(** What [compute_totals] does with the sum of the lines. *)
Definition totals_of (subtotal : Decimal) (tax_rate : pyval)
  : result (Decimal * Decimal * Decimal) :=
  rbind (quantize subtotal) (fun subtotal =>
  rbind (Decimal_of_str tax_rate) (fun rate =>
  rbind (rbind (mul subtotal rate) quantize) (fun tax =>
  rbind (rbind (add subtotal tax) quantize) (fun total =>
  Ok (subtotal, tax, total))))).


(** The two halves of an outcome. *)
Definition store_after {A} (o : outcome A) : store :=
  match o with
  | Ret _ s => s
  | Raise _ s => s
  end.

Definition value_of {A} (o : outcome A) : A + exn :=
  match o with
  | Ret a _ => inl a
  | Raise e _ => inr e
  end.

Definition returns {A} (o : outcome A) : bool :=
  match o with
  | Ret _ _ => true
  | Raise _ _ => false
  end.

(** An item that is a dict. *)
Definition is_record (v : pyval) : Prop := exists a, v = PRef a.

(** An item that carries a Decimal line total in the store. *)
Definition has_line_total (s : store) (it : pyval) : Prop :=
  exists a d, it = PRef a /\ deref s a !! "_line_total"%string = Some (PDec d).

(** A decimal that is neither an infinity nor a NaN. *)
Definition is_finite (d : Decimal) : Prop := exists sg c e, d = DFin sg c e.

(** An amount in cents: the signed coefficient of a decimal at exponent -2. *)
Definition cents (d : Decimal) : option Z :=
  match d with
  | DFin sg c e => if e =? -2 then Some (signed sg (Z.of_N c)) else None
  | _ => None
  end.



(** The exact value of a numeric input: [(z, e)] stands for z * 10^e.
    NaN and the infinities have none. *)
Definition exact_of (v : pyval) : option (Z * Z) :=
  match Decimal_of_str v with
  | Ok (DFin sg c e) => Some (signed sg (Z.of_N c), e)
  | _ => None
  end.

(** An item whose quantity and unit price are finite numbers. *)
Definition numeric_item (s : store) (it : pyval) : Prop :=
  exists a,
    it = PRef a
    /\ is_Some (exact_of (item_qty (deref s a)))
    /\ is_Some (exact_of (item_unit_price (deref s a))).

(** ** The specification's words *)

(** The required top-level fields, in the order the specification checks
    them. *)
Definition spec_required : list string :=
  ["invoice_number"; "date"; "bill_to"; "items"]%string.

(** The first key of [ks] that the record lacks. *)
Fixpoint first_missing (d : pydict) (ks : list string) : option string :=
  match ks with
  | [] => None
  | k :: rest =>
      match d !! k with
      | Some _ => first_missing d rest
      | None => Some k
      end
  end.

(** Python's sequence types among the values: list, tuple and str. *)
Definition is_sequence (v : pyval) : bool :=
  match v with
  | PList _ | PTuple _ | PStr _ => true
  | _ => false
  end.

(** The default the specification gives an omitted optional field. *)
Definition spec_default (k : string) : option pyval :=
  if String.eqb k "tax_rate" then Some (PFloat "0.0")
  else if String.eqb k "due_date" then Some PNone
  else if String.eqb k "notes" then Some (PStr "")
  else None.

(** round(z * 10^e, 2, half-up), in cents: the nearest number of cents, a
    tie going to the neighbour of larger magnitude. *)
Definition spec_round2 (z e : Z) : Z :=
  if -2 <=? e then z * 10 ^ (e + 2)
  else Z.sgn z * ((2 * Z.abs z + 10 ^ (-2 - e)) / (2 * 10 ^ (-2 - e))).


(** The totals the specification describes, in cents, on exact values. *)
Definition spec_line (qty unit : Z * Z) : Z :=
  spec_round2 (qty.1 * unit.1) (qty.2 + unit.2).


Definition spec_tax (subtotal : Z) (rate : Z * Z) : Z :=
  spec_round2 (subtotal * rate.1) (-2 + rate.2).


(** A product that the context holds without rounding: at most [prec]
    digits, at an exponent within its range. *)
Definition product_fits (x y : Z * Z) : Prop :=
  Z.abs (x.1 * y.1) < 10 ^ prec /\ Etiny <= x.2 + y.2 <= Etop.


(** ** Sample records *)

Definition sample_fields : pydict :=
  <["invoice_number"%string := PStr "CTCG-2025-0001"]>
    (<["date"%string := PStr "2025-01-31"]>
       (<["bill_to"%string := PRef 2%positive]> ∅)).

(** A complete record with an explicit tax rate of 0 and no notes. *)
Definition sample_record : pydict :=
  <["items"%string := PList []]> (<["tax_rate"%string := PInt 0]> sample_fields).

(** The same record with its items in a tuple. *)
Definition tuple_record : pydict :=
  <["items"%string := PTuple []]> sample_fields.

(** A record without a date and without items. *)
Definition undated_record : pydict :=
  <["invoice_number"%string := PStr "CTCG-2025-0001"]>
    (<["bill_to"%string := PRef 2%positive]> ∅).

Definition store_of (d : pydict) : store := <[1%positive := d]> ∅.

(** Two items, the second one listed twice, and the record that holds them. *)
Definition lotus_item : pydict :=
  <["description"%string := PStr "Black Lotus (Alpha)"]>
    (<["qty"%string := PInt 1]> (<["unit_price"%string := PFloat "125000.0"]> ∅)).

Definition goyf_item : pydict :=
  <["description"%string := PStr "Tarmogoyf (Legacy playset)"]>
    (<["qty"%string := PInt 4]> (<["unit_price"%string := PStr "200.00"]> ∅)).

Definition demo_items : list pyval :=
  [PRef 3%positive; PRef 4%positive; PRef 4%positive].

Definition demo_store : store :=
  <[1%positive := <["items"%string := PList demo_items]> sample_fields]>
    (<[3%positive := lotus_item]> (<[4%positive := goyf_item]> ∅)).



(** A host with no locale, a layout that accepts everything and floats read
    through their text (exact for the whole-number floats of the samples). *)
Definition plain_float (r : string) : Decimal :=
  match from_string r with
  | Ok d => d
  | Err _ => DNaN false false 0
  end.

Definition no_sequence (l : list pyval) : result Decimal :=
  Err (ValueError "Invalid tuple size in creation of Decimal from list or tuple.").

Definition no_locale (amt : Decimal) : option string := None.

Definition plain_paragraph (v : pyval) : result pyval := Ok v.

Definition plain_header (s : store) (data : addr) : option exn := None.

Definition plain_host : host :=
  {| float_exact := plain_float; from_sequence := no_sequence;
     locale_currency := no_locale; flowable := pyval;
     Paragraph := plain_paragraph; layout_header := plain_header |}.



(** One unit at a price of thirty digits, just under half a cent. *)
Definition long_price : string := "0.00499999999999999999999999999995".



(** One unit at 1.00, to be taxed at a rate of thirty digits. *)
Definition unit_item : pydict :=
  <["qty"%string := PInt 1]> (<["unit_price"%string := PStr "1.00"]> ∅).

Definition unit_store : store := <[3%positive := unit_item]> ∅.

(** [generate_invoice] up to its totals (the first statements of its body):
    the items it goes on to render and the three aggregates. *)
Definition invoice_totals (invoice_data : addr)
  : M (list pyval * (Decimal * Decimal * Decimal)) :=
  invoice_data ← validate_invoice_data invoice_data;
  items ← dict_getitem invoice_data "items";
  tax_rate ← py_get (PRef invoice_data) "tax_rate" (PFloat "0.0");
  totals ← compute_totals (list_items items) tax_rate;
  mret (list_items items, totals).


(** The decimal that holds [z] cents; zero is the positive 0.00. *)
Definition of_cents (z : Z) : Decimal := DFin (z <? 0) (Z.to_N (Z.abs z)) (-2).






(** ** Validation *)

Section Validation.

Implicit Types (data : addr) (s : store) (k : string).

Lemma check_required_first_missing data ks s :
  check_required data ks s =
    match first_missing (deref s data) ks with
    | Some k => Raise (ValueError ("Missing required invoice field: " +:+ k)) s
    | None => Ret tt s
    end.
Proof.
  induction ks as [|k ks IH]; [reflexivity|].
  cbn [check_required first_missing].
  unfold mbind, M_bind, dict_contains.
  destruct (deref s data !! k) as [v|] eqn:Hk.
  - rewrite bool_decide_eq_true_2 by eauto. exact IH.
  - rewrite bool_decide_eq_false_2 by (intros [? ?]; discriminate).
    reflexivity.
Qed.

Lemma setdefault_lookup data k v s :
  exists s', dict_setdefault data k v s = Ret tt s'
    /\ (forall a, a <> data -> s' !! a = s !! a)
    /\ forall k', deref s' data !! k' =
         if decide (k = k') then Some (default v (deref s data !! k))
         else deref s data !! k'.
Proof.
  unfold dict_setdefault.
  destruct (deref s data !! k) as [w|] eqn:Hk.
  - exists s. split_and!; [done..|].
    intros k'. case_decide; subst; cbn; congruence.
  - eexists. split_and!; [done|..].
    + intros a Ha. unfold set_field. by rewrite lookup_insert_ne.
    + intros k'. unfold set_field, deref at 1.
      rewrite lookup_total_insert_eq, lookup_insert. case_decide; done.
Qed.

Lemma normalize_spec data s :
  exists s', normalize data s = Ret data s'
    /\ (forall a, a <> data -> s' !! a = s !! a)
    /\ forall k, deref s' data !! k =
          match deref s data !! k with
          | Some v => Some v
          | None => spec_default k
          end.
Proof.
  unfold normalize, mbind, M_bind.
  destruct (setdefault_lookup data "tax_rate" (PFloat "0.0") s)
    as (s1 & -> & F1 & L1).
  destruct (setdefault_lookup data "due_date" PNone s1)
    as (s2 & -> & F2 & L2).
  destruct (setdefault_lookup data "notes" (PStr "") s2)
    as (s3 & -> & F3 & L3).
  exists s3. split; [reflexivity|]. split.
  - intros a Ha. rewrite F3, F2, F1 by done. done.
  - intros k. rewrite L3, !L2, !L1. unfold spec_default.
    repeat case_decide; subst; cbn; try done;
      repeat match goal with
        | |- context [String.eqb ?a ?b] =>
            destruct (String.eqb_spec a b); try congruence
        end;
      try (by case_match).
Qed.

(** [validate_invoice_data] as one case analysis on the record. *)
Lemma validate_invoice_data_cases data s :
  validate_invoice_data data s =
    match first_missing (deref s data) required with
    | Some k => Raise (ValueError ("Missing required invoice field: " +:+ k)) s
    | None =>
        match deref s data !! "items"%string with
        | Some v =>
            if isinstance_list v then normalize data s
            else Raise (ValueError "items must be a list") s
        | None => Raise (KeyError "items") s
        end
    end.
Proof.
  unfold validate_invoice_data.
  unfold mbind at 1, M_bind at 1.
  rewrite check_required_first_missing.
  destruct (first_missing (deref s data) required); [reflexivity|].
  unfold mbind at 1, M_bind at 1, dict_getitem.
  destruct (deref s data !! "items"%string) as [v|]; [|reflexivity].
  destruct (isinstance_list v); reflexivity.
Qed.

End Validation.

(** C2: a record that lacks a required field makes [validate_invoice_data]
    raise the error naming the first missing key in the order
    invoice_number, date, bill_to, items; the store at the raise is the
    store it was called in, so nothing has been computed or normalized. *)
Theorem validate_first_missing_field (data : addr) (s : store) (k : string) :
  first_missing (deref s data) spec_required = Some k ->
  validate_invoice_data data s =
    Raise (ValueError ("Missing required invoice field: " +:+ k)) s.
Proof.
  intros Hk. rewrite validate_invoice_data_cases.
  change required with spec_required. by rewrite Hk.
Qed.

Lemma validate_first_missing_field_witness :
  first_missing (deref (store_of undated_record) 1%positive) spec_required
    = Some "date"%string
  /\ validate_invoice_data 1%positive (store_of undated_record) =
       Raise (ValueError "Missing required invoice field: date")
         (store_of undated_record).
Proof.
  split; [reflexivity|].
  apply (validate_first_missing_field 1%positive (store_of undated_record)
           "date"%string).
  reflexivity.
Defined.

(** C3, as stated, fails: a tuple is a sequence, and a record whose items
    are a tuple is rejected. *)
Lemma validate_rejects_tuple :
  first_missing (deref (store_of tuple_record) 1%positive) spec_required = None
  /\ deref (store_of tuple_record) 1%positive !! "items"%string
       = Some (PTuple [])
  /\ is_sequence (PTuple []) = true
  /\ validate_invoice_data 1%positive (store_of tuple_record) =
       Raise (ValueError "items must be a list") (store_of tuple_record).
Proof. split_and!; reflexivity. Qed.

(** C3, amended: on a record with all required fields,
    [validate_invoice_data] raises the items error exactly when the items
    value is not a list; a tuple is rejected like any other non-list. *)
Theorem validate_items_not_list (data : addr) (s : store) (v : pyval) :
  first_missing (deref s data) spec_required = None ->
  deref s data !! "items"%string = Some v ->
  ((exists s', validate_invoice_data data s =
                 Raise (ValueError "items must be a list") s')
   <-> isinstance_list v = false)
  /\ (isinstance_list v = false ->
      validate_invoice_data data s =
        Raise (ValueError "items must be a list") s)
  /\ forall l, isinstance_list (PTuple l) = false.
Proof.
  intros Hm Hv. rewrite validate_invoice_data_cases.
  change required with spec_required. rewrite Hm, Hv.
  split_and!; [|by intros ->|done].
  destruct (isinstance_list v) eqn:Hl; split; try done.
  - intros [s' Hs']. destruct (normalize_spec data s) as (s'' & E & _).
    rewrite E in Hs'. discriminate.
  - eauto.
Qed.

Lemma validate_items_not_list_witness :
  (exists s', validate_invoice_data 1%positive (store_of tuple_record) =
                Raise (ValueError "items must be a list") s')
  <-> isinstance_list (PTuple []) = false.
Proof.
  apply (validate_items_not_list 1%positive (store_of tuple_record) (PTuple []));
    reflexivity.
Defined.

(** C6: on a record that passes the checks, [validate_invoice_data] returns
    the address it was given; in the store it leaves, every other object is
    as before and the record has, under each key, the value it had, or the
    default (tax_rate 0.0, due_date None, notes "") where it had none. *)
Theorem validate_fills_absent_defaults (data : addr) (s : store) (l : list pyval) :
  first_missing (deref s data) spec_required = None ->
  deref s data !! "items"%string = Some (PList l) ->
  exists s', validate_invoice_data data s = Ret data s'
    /\ (forall a, a <> data -> s' !! a = s !! a)
    /\ forall k, deref s' data !! k =
         match deref s data !! k with
         | Some v => Some v
         | None => spec_default k
         end.
Proof.
  intros Hm Hv. rewrite validate_invoice_data_cases.
  change required with spec_required. rewrite Hm, Hv. cbn.
  apply normalize_spec.
Qed.

Lemma validate_fills_absent_defaults_witness :
  exists s', validate_invoice_data 1%positive (store_of sample_record)
             = Ret 1%positive s'
    /\ deref s' 1%positive !! "tax_rate"%string = Some (PInt 0)
    /\ deref s' 1%positive !! "due_date"%string = Some PNone
    /\ deref s' 1%positive !! "notes"%string = Some (PStr "").
Proof.
  destruct (validate_fills_absent_defaults 1%positive (store_of sample_record) [])
    as (s' & E & _ & L); [reflexivity..|].
  exists s'. split; [exact E|].
  rewrite !L. split_and!; reflexivity.
Defined.

(** C9: when [validate_invoice_data] raises, the store is the one it was
    called in: no default has been inserted. *)
Theorem validate_raise_keeps_store (data : addr) (s s' : store) (e : exn) :
  validate_invoice_data data s = Raise e s' -> s' = s.
Proof.
  rewrite validate_invoice_data_cases.
  destruct (first_missing (deref s data) required); [congruence|].
  destruct (deref s data !! "items"%string) as [v|]; [|congruence].
  destruct (isinstance_list v); [|congruence].
  destruct (normalize_spec data s) as (s'' & -> & _). discriminate.
Qed.

Lemma validate_raise_keeps_store_witness :
  validate_invoice_data 1%positive (store_of tuple_record) =
    Raise (ValueError "items must be a list") (store_of tuple_record)
  /\ store_of tuple_record = store_of tuple_record.
Proof.
  split; [reflexivity|].
  apply (validate_raise_keeps_store 1%positive (store_of tuple_record)
           (store_of tuple_record) (ValueError "items must be a list")).
  reflexivity.
Defined.

(** ** The totals loop *)

Section Totals.

Implicit Types (s : store) (a : addr) (k : string) (items : list pyval).

Lemma deref_set_field s a k x b k' :
  deref (set_field s a k x) b !! k' =
    if decide (a = b /\ k = k') then Some x else deref s b !! k'.
Proof.
  unfold set_field, deref.
  destruct (decide (a = b)) as [->|Hab].
  - rewrite lookup_total_insert_eq, lookup_insert.
    destruct (decide (k = k')) as [->|Hk].
    + by rewrite decide_True.
    + rewrite decide_False; [done|]. by intros [_ ?].
  - rewrite lookup_total_insert_ne by done.
    rewrite decide_False; [done|]. by intros [? _].
Qed.

Lemma deref_set_field_ne s a k x b k' :
  k <> k' -> deref (set_field s a k x) b !! k' = deref s b !! k'.
Proof.
  intros Hk. rewrite deref_set_field.
  rewrite decide_False; [done|]. by intros [_ ?].
Qed.

Lemma set_field_other s a k x b :
  a <> b -> set_field s a k x !! b = s !! b.
Proof. intros. unfold set_field. by rewrite lookup_insert_ne. Qed.

Lemma line_of_set_line_total s a x b :
  line_of (deref (set_field s a "_line_total" x) b) = line_of (deref s b).
Proof.
  unfold line_of, item_qty, item_unit_price.
  by rewrite !deref_set_field_ne.
Qed.

(** One turn of the loop on a dict. *)
Lemma compute_lines_record a items subtotal s :
  compute_lines (PRef a :: items) subtotal s =
    match line_of (deref s a) with
    | Err e => Raise e s
    | Ok line =>
        let s' := set_field s a "_line_total" (PDec line) in
        match add subtotal line with
        | Err e => Raise e s'
        | Ok subtotal' => compute_lines items subtotal' s'
        end
    end.
Proof.
  cbn [compute_lines]. unfold line_of, item_qty, item_unit_price.
  unfold mbind, M_bind, py_get, py_setitem; cbn.
  destruct (Decimal_of_str (default (PInt 0) (deref s a !! "qty"%string)))
    as [qty|e]; cbn; [|reflexivity].
  destruct (Decimal_of_str
              (default (PStr "0.00") (deref s a !! "unit_price"%string)))
    as [unit|e]; cbn; [|reflexivity].
  destruct (rbind (mul qty unit) quantize) as [line|e]; cbn; [|reflexivity].
  destruct (add subtotal line); reflexivity.
Qed.

(** One turn of the loop on anything else. *)
Lemma compute_lines_not_record v items subtotal s :
  ~ is_record v ->
  compute_lines (v :: items) subtotal s = Raise AttributeError s.
Proof.
  intros Hv. destruct v; try reflexivity. destruct Hv. by eexists.
Qed.

Lemma is_record_dec v : {a | v = PRef a} + {~ is_record v}.
Proof.
  destruct v; try (right; intros [? ?]; discriminate). left. by eexists.
Qed.

(** The loop writes "_line_total" keys of items and nothing else. *)
Lemma compute_lines_frame items subtotal s :
  let s' := store_after (compute_lines items subtotal s) in
  (forall a k, k <> "_line_total"%string -> deref s' a !! k = deref s a !! k)
  /\ (forall a, PRef a ∉ items -> s' !! a = s !! a).
Proof.
  revert subtotal s. induction items as [|it items IH]; intros subtotal s.
  { cbn. done. }
  destruct (is_record_dec it) as [[a ->]|Hn].
  2:{ rewrite compute_lines_not_record by done. cbn. done. }
  rewrite compute_lines_record.
  destruct (line_of (deref s a)) as [line|e]; [|cbn; done].
  cbn zeta. destruct (add subtotal line) as [sub'|e].
  - specialize (IH sub' (set_field s a "_line_total" (PDec line))).
    cbn zeta in IH. destruct IH as [IH1 IH2]. split.
    + intros b k Hk. rewrite IH1 by done. by apply deref_set_field_ne.
    + intros b Hb. rewrite IH2 by set_solver.
      apply set_field_other. set_solver.
  - cbn. split.
    + intros b k Hk. by apply deref_set_field_ne.
    + intros b Hb. apply set_field_other. intros ->. apply Hb. by left.
Qed.

(** The loop's value depends on the store through the quantities and unit
    prices of the items only. *)
Lemma compute_lines_value items subtotal s1 s2 :
  (forall a, PRef a ∈ items -> line_of (deref s1 a) = line_of (deref s2 a)) ->
  value_of (compute_lines items subtotal s1)
    = value_of (compute_lines items subtotal s2).
Proof.
  revert subtotal s1 s2.
  induction items as [|it items IH]; intros subtotal s1 s2 Hs; [done|].
  destruct (is_record_dec it) as [[a ->]|Hn].
  2:{ by rewrite !compute_lines_not_record. }
  rewrite !compute_lines_record, <- (Hs a) by set_solver.
  destruct (line_of (deref s1 a)) as [line|e]; [|done].
  cbn zeta. destruct (add subtotal line) as [sub'|e]; [|done].
  apply IH. intros b Hb. rewrite !line_of_set_line_total.
  apply Hs. set_solver.
Qed.

(** A cached line total stays a Decimal through the loop. *)
Lemma compute_lines_keeps_cached items subtotal s a d :
  deref s a !! "_line_total"%string = Some (PDec d) ->
  exists d', deref (store_after (compute_lines items subtotal s)) a
               !! "_line_total"%string = Some (PDec d').
Proof.
  revert subtotal s d.
  induction items as [|it items IH]; intros subtotal s d Hd; [by eauto|].
  destruct (is_record_dec it) as [[b ->]|Hn].
  2:{ rewrite compute_lines_not_record by done. by eauto. }
  rewrite compute_lines_record.
  destruct (line_of (deref s b)) as [line|e]; [|by eauto].
  assert (exists d', deref (set_field s b "_line_total" (PDec line)) a
                       !! "_line_total"%string = Some (PDec d')) as [d' Hd'].
  { rewrite deref_set_field. case_decide; eauto. }
  cbn zeta. destruct (add subtotal line) as [sub'|e]; [|by eauto].
  by eapply IH.
Qed.

(** After a run that returns, every item is a dict with a Decimal under
    "_line_total". *)
Lemma compute_lines_cached items subtotal s r s' :
  compute_lines items subtotal s = Ret r s' ->
  Forall (fun it => exists a d,
            it = PRef a /\ deref s' a !! "_line_total"%string = Some (PDec d))
    items.
Proof.
  revert subtotal s. induction items as [|it items IH]; intros subtotal s H.
  { constructor. }
  destruct (is_record_dec it) as [[a ->]|Hn].
  2:{ rewrite compute_lines_not_record in H by done. discriminate. }
  rewrite compute_lines_record in H.
  destruct (line_of (deref s a)) as [line|e]; [|discriminate].
  cbn zeta in H. destruct (add subtotal line) as [sub'|e]; [|discriminate].
  constructor; [|by eapply IH].
  destruct (compute_lines_keeps_cached items sub'
              (set_field s a "_line_total" (PDec line)) a line) as [d' Hd'].
  { rewrite deref_set_field. by rewrite decide_True. }
  rewrite H in Hd'. eauto.
Qed.

Lemma compute_totals_lines items tax_rate s :
  compute_totals items tax_rate s =
    match compute_lines items (DFin false 0 (-2)) s with
    | Raise e s' => Raise e s'
    | Ret subtotal s' =>
        match totals_of subtotal tax_rate with
        | Ok r => Ret r s'
        | Err e => Raise e s'
        end
    end.
Proof.
  unfold compute_totals, totals_of. unfold mbind at 1, M_bind at 1.
  destruct (compute_lines items (DFin false 0 (-2)) s) as [sub s'|]; [|done].
  unfold mbind, M_bind.
  destruct (quantize sub) as [sub'|]; cbn; [|done].
  destruct (Decimal_of_str tax_rate) as [rate|]; cbn; [|done].
  destruct (rbind (mul sub' rate) quantize) as [tax|]; cbn; [|done].
  destruct (rbind (add sub' tax) quantize); done.
Qed.

Lemma compute_totals_store items tax_rate s :
  store_after (compute_totals items tax_rate s)
    = store_after (compute_lines items (DFin false 0 (-2)) s).
Proof.
  rewrite compute_totals_lines.
  destruct (compute_lines items (DFin false 0 (-2)) s); [|done].
  by destruct (totals_of _ _).
Qed.

(** *** Errors *)









End Totals.

(** C8: whatever [compute_totals] does, in the store it leaves every key
    other than "_line_total" of every dict reads as before, a dict that is
    not an item is untouched (so a list of items held by a record keeps its
    elements and their order), and the value returned or exception raised
    is the same from any store in which the items have the same quantities
    and unit prices. *)
Theorem compute_totals_only_line_totals
    (items : list pyval) (tax_rate : pyval) (s : store) :
  let s' := store_after (compute_totals items tax_rate s) in
  (forall a k, k <> "_line_total"%string -> deref s' a !! k = deref s a !! k)
  /\ (forall a, PRef a ∉ items -> s' !! a = s !! a)
  /\ forall s2,
      (forall a, PRef a ∈ items ->
         item_qty (deref s2 a) = item_qty (deref s a)
         /\ item_unit_price (deref s2 a) = item_unit_price (deref s a)) ->
      value_of (compute_totals items tax_rate s2)
        = value_of (compute_totals items tax_rate s).
Proof.
  cbn zeta. rewrite compute_totals_store.
  destruct (compute_lines_frame items (DFin false 0 (-2)) s) as [F1 F2].
  split_and!; [done..|].
  intros s2 Hs2. rewrite !compute_totals_lines.
  pose proof (compute_lines_value items (DFin false 0 (-2)) s2 s) as Hv.
  destruct (compute_lines items (DFin false 0 (-2)) s2) as [r2 ?|e2 ?],
    (compute_lines items (DFin false 0 (-2)) s) as [r1 ?|e1 ?]; cbn in Hv.
  all: (lapply Hv;
        [| intros a Ha; destruct (Hs2 a Ha) as [Hq Hu];
           unfold line_of; by rewrite Hq, Hu ]).
  all: intros [= ->] || intros [=]; try done.
  by destruct (totals_of r1 tax_rate).
Qed.

Lemma compute_totals_only_line_totals_witness :
  deref (store_after (compute_totals demo_items (PInt 0) demo_store)) 4%positive
    !! "qty"%string = Some (PInt 4)
  /\ store_after (compute_totals demo_items (PInt 0) demo_store) !! 1%positive
     = demo_store !! 1%positive.
Proof.
  destruct (compute_totals_only_line_totals demo_items (PInt 0) demo_store)
    as (F1 & F2 & _).
  split.
  - rewrite F1; [reflexivity|discriminate].
  - apply F2. unfold demo_items. intros H.
    repeat (apply elem_of_cons in H as [H|H]; [discriminate|]).
    by apply elem_of_nil in H.
Defined.

(** ** The item rows *)

Section Rendering.

(** A row whose item carries a line total takes it from there and leaves
    the store alone. *)
Lemma table_row_cached (H : host) s it r s' :
  has_line_total s it ->
  table_row H it s = Ret r s' ->
  row_source H r = Cached /\ s' = s.
Proof.
  intros (a & d & -> & Hd). unfold table_row.
  unfold mbind, M_bind, py_get. rewrite Hd. cbn.
  destruct (Paragraph H _); cbn; [|discriminate].
  destruct (moneyfmt H _); cbn; [|discriminate].
  destruct (moneyfmt H (PDec d)); cbn; [|discriminate].
  by intros [= <- <-].
Qed.

Lemma table_rows_cached (H : host) s items rows s' :
  Forall (has_line_total s) items ->
  table_rows H items s = Ret rows s' ->
  Forall (fun r => row_source H r = Cached) rows /\ s' = s.
Proof.
  intros Hall. revert rows s'.
  induction Hall as [|it items Hit _ IH]; intros rows s'; cbn.
  { by intros [= <- <-]. }
  unfold mbind, M_bind.
  destruct (table_row H it s) as [r s1|] eqn:Er; [|discriminate].
  destruct (table_row_cached _ _ _ _ _ Hit Er) as [Hr ->].
  destruct (table_rows H items s) as [rs s2|] eqn:Ers; [|discriminate].
  destruct (IH rs s2 eq_refl) as [Hrs ->].
  intros [= <- <-]. split; [by constructor|done].
Qed.

(** C10: when [compute_totals] returns, every item is a dict with a
    Decimal under "_line_total"; so the row of each item takes the
    [Cached] branch, and every row [generate_invoice] builds is a
    [Cached] one: the branch that recomputes the product is never
    taken. *)
Theorem line_total_fallback_unreachable (H : host) :
  (forall items tax_rate s r s',
      compute_totals items tax_rate s = Ret r s' ->
      Forall (has_line_total s') items
      /\ forall it row s'',
           it ∈ items -> table_row H it s' = Ret row s'' ->
           row_source H row = Cached)
  /\ forall data s rows s',
      generate_invoice H data s = Ret rows s' ->
      Forall (fun row => row_source H row = Cached) rows.
Proof.
  assert (forall items tax_rate s r s',
             compute_totals items tax_rate s = Ret r s' ->
             Forall (has_line_total s') items) as Hcached.
  { intros items tax_rate s r s'. rewrite compute_totals_lines.
    destruct (compute_lines items _ s) as [sub s1|] eqn:El; [|discriminate].
    destruct (totals_of sub tax_rate); intros [= <- <-].
    by eapply compute_lines_cached. }
  split.
  - intros items tax_rate s r s' Hr. split; [by eapply Hcached|].
    intros it row s'' Hin Hrow.
    pose proof (Hcached _ _ _ _ _ Hr) as Hall. rewrite Forall_forall in Hall.
    by destruct (table_row_cached _ _ _ _ _ (Hall _ Hin) Hrow).
  - intros data s rows s'. unfold generate_invoice.
    unfold mbind at 1, M_bind at 1.
    destruct (validate_invoice_data data s) as [d s1|]; [|discriminate].
    unfold mbind at 1, M_bind at 1.
    destruct (dict_getitem d "items" s1) as [v s2|]; [|discriminate].
    unfold mbind at 1, M_bind at 1.
    destruct (py_get (PRef d) "tax_rate" (PFloat "0.0") s2) as [t s3|];
      [|discriminate].
    unfold mbind at 1, M_bind at 1.
    destruct (compute_totals (list_items v) t s3) as [r s4|] eqn:Et;
      [|discriminate].
    unfold mbind at 1, M_bind at 1.
    destruct (layout_header H s4 d); [discriminate|].
    intros Hrows.
    by destruct (table_rows_cached _ _ _ _ _ (Hcached _ _ _ _ _ Et) Hrows).
Qed.


End Rendering.


Lemma line_total_fallback_unreachable_witness :
  exists rows,
    value_of (generate_invoice plain_host 1%positive demo_store) = inl rows
    /\ Forall (fun row => row_source plain_host row = Cached) rows.
Proof.
  assert (returns (generate_invoice plain_host 1%positive demo_store) = true)
    as Hret by (vm_compute; reflexivity).
  destruct (generate_invoice plain_host 1%positive demo_store)
    as [rows s'|e s'] eqn:E; [|discriminate Hret].
  exists rows. split; [reflexivity|].
  exact (proj2 (line_total_fallback_unreachable plain_host)
           1%positive demo_store rows s' E).
Defined.


(** ** Arithmetic in the context *)

Section Arithmetic.

Lemma ndigits_aux_bounds fuel c :
  0 < c < 2 ^ (Z.of_nat fuel + 1) ->
  1 <= ndigits_aux fuel c
  /\ 10 ^ (ndigits_aux fuel c - 1) <= c < 10 ^ ndigits_aux fuel c.
Proof.
  revert c. induction fuel as [|fuel IH]; intros c Hc.
  - cbn in *. lia.
  - cbn [ndigits_aux]. destruct (Z.ltb_spec c 10) as [Hlt|Hge].
    + cbn. lia.
    + assert (0 < c / 10 < 2 ^ (Z.of_nat fuel + 1)) as Hdiv.
      { split; [apply Z.div_str_pos; lia|].
        apply Z.div_lt_upper_bound; [lia|].
        replace (Z.of_nat (S fuel) + 1) with (Z.succ (Z.of_nat fuel + 1))
          in Hc by lia.
        rewrite Z.pow_succ_r in Hc by lia. lia. }
      destruct (IH _ Hdiv) as (H1 & H2 & H3).
      set (n := ndigits_aux fuel (c / 10)) in *.
      replace (1 + n - 1) with (Z.succ (n - 1)) by lia.
      replace (1 + n) with (Z.succ n) by lia.
      rewrite !Z.pow_succ_r by lia.
      pose proof (Z.mul_div_le c 10 ltac:(lia)).
      pose proof (Z.mul_succ_div_gt c 10 ltac:(lia)).
      lia.
Qed.

Lemma ndigits_bounds c :
  0 < c -> 1 <= ndigits c /\ 10 ^ (ndigits c - 1) <= c < 10 ^ ndigits c.
Proof.
  intros Hc. apply ndigits_aux_bounds.
  rewrite Z2Nat.id by apply Z.log2_nonneg.
  pose proof (Z.log2_spec c Hc). 
  replace (Z.log2 c + 1) with (Z.succ (Z.log2 c)) by lia. lia.
Qed.

Lemma ndigits_pos c : 1 <= ndigits c.
Proof.
  destruct (Z.lt_ge_cases 0 c) as [Hc|Hc]; [by apply ndigits_bounds|].
  unfold ndigits. rewrite Z.log2_nonpos by lia. reflexivity.
Qed.

Lemma ndigits_0 : ndigits 0 = 1.
Proof. reflexivity. Qed.

Lemma ndigits_le c m : 0 <= c < 10 ^ m -> 1 <= m -> ndigits c <= m.
Proof.
  intros [H0 Hc] Hm.
  destruct (Z.eq_dec c 0) as [->|Hne]; [by rewrite ndigits_0|].
  destruct (ndigits_bounds c ltac:(lia)) as (_ & Hlo & _).
  destruct (Z.le_gt_cases (ndigits c) m) as [|Hgt]; [done|].
  assert (10 ^ m <= 10 ^ (ndigits c - 1)) by (apply Z.pow_le_mono_r; lia).
  lia.
Qed.

Lemma ndigits_gt c m : 10 ^ m <= c -> 0 <= m -> m < ndigits c.
Proof.
  intros Hc Hm.
  assert (0 < c) as Hpos by (pose proof (Z.pow_pos_nonneg 10 m); lia).
  destruct (ndigits_bounds c Hpos) as (_ & _ & Hhi).
  destruct (Z.lt_ge_cases m (ndigits c)) as [|Hge]; [done|].
  assert (10 ^ ndigits c <= 10 ^ m) by (apply Z.pow_le_mono_r; lia).
  lia.
Qed.

(** A coefficient of at most [prec] digits at an exponent of the context
    is left as it is. *)
Lemma fix_exact sg c e :
  0 <= c < 10 ^ prec -> Etiny <= e <= Etop ->
  fix_ sg c e = Ok (finite sg c e).
Proof.
  intros Hc He. unfold fix_.
  destruct (Z.eqb_spec c 0) as [->|Hne].
  { do 2 f_equal. unfold Etiny, Etop, Emax, Emin, prec in *. lia. }
  pose proof (ndigits_le c prec Hc ltac:(done)) as Hn.
  rewrite (proj2 (Z.ltb_ge _ _)) by lia.
  rewrite (proj2 (Z.ltb_ge _ _)); [done|].
  unfold Etiny, Etop, Emax, Emin, prec in *. lia.
Qed.

(** Adding one half and truncating is rounding half up. *)
Lemma half_up_div c P :
  0 <= c -> 0 < P ->
  (2 * c + P) / (2 * P) = c / P + (if P <=? 2 * (c mod P) then 1 else 0).
Proof.
  intros Hc HP.
  pose proof (Z.div_mod c P ltac:(lia)) as Hdm.
  pose proof (Z.mod_pos_bound c P HP) as Hr.
  destruct (Z.leb_spec P (2 * (c mod P))).
  - symmetry. apply Z.div_unique with (r := 2 * (c mod P) - P); lia.
  - symmetry. apply Z.div_unique with (r := 2 * (c mod P) + P); lia.
Qed.

Lemma signed_mul s1 s2 a b :
  signed s1 a * signed s2 b = signed (xorb s1 s2) (a * b).
Proof. destruct s1, s2; cbn; lia. Qed.

Lemma signed_abs sg c : 0 <= c -> Z.abs (signed sg c) = c.
Proof. destruct sg; cbn; lia. Qed.

(** [_rescale] to two places computes the specification's rounding. *)
Lemma rescale_spec_round2 sg c e :
  0 <= c ->
  signed sg (rescale_half_up c e (-2)) = spec_round2 (signed sg c) e.
Proof.
  intros Hc. unfold rescale_half_up, spec_round2, round_half_up.
  destruct (Z.leb_spec (-2) e) as [He|He].
  { replace (e - -2) with (e + 2) by lia. destruct sg; cbn; lia. }
  set (P := 10 ^ (-2 - e)).
  assert (0 < P) as HP by (apply Z.pow_pos_nonneg; lia).
  rewrite signed_abs by done.
  rewrite half_up_div by done.
  destruct (Z.eq_dec c 0) as [->|Hne].
  { rewrite Z.mod_0_l, Z.div_0_l by lia.
    rewrite (proj2 (Z.leb_gt _ _)) by lia. destruct sg; cbn; lia. }
  assert (Z.sgn (signed sg c) = signed sg 1) as ->
    by (destruct sg; cbn; lia).
  destruct (P <=? 2 * (c mod P)); destruct sg; cbn; lia.
Qed.

Lemma rescale_nonneg c e : 0 <= c -> 0 <= rescale_half_up c e (-2).
Proof.
  intros Hc. unfold rescale_half_up, round_half_up.
  destruct (Z.leb_spec (-2) e).
  - apply Z.mul_nonneg_nonneg; [done|]. apply Z.pow_nonneg. lia.
  - assert (0 <= c / 10 ^ (-2 - e)).
    { apply Z.div_pos; [done|]. apply Z.pow_pos_nonneg; lia. }
    destruct (_ <=? _); lia.
Qed.


(** A coefficient that has at most [prec] digits once rescaled passes
    the digit check made before rescaling. *)
Lemma rescale_small_adjusted c e :
  0 < c -> rescale_half_up c e (-2) < 10 ^ prec -> e + ndigits c <= 26.
Proof.
  intros Hc Hn.
  destruct (ndigits_bounds c Hc) as (H1 & Hlo & _).
  destruct (Z.le_gt_cases (e + ndigits c) 26) as [|Hgt]; [done|exfalso].
  unfold rescale_half_up, round_half_up in Hn.
  destruct (Z.leb_spec (-2) e) as [He|He].
  - replace (e - -2) with (e + 2) in Hn by lia.
    assert (10 ^ prec <= 10 ^ (ndigits c - 1) * 10 ^ (e + 2)).
    { rewrite <- Z.pow_add_r by lia. apply Z.pow_le_mono_r; unfold prec; lia. }
    assert (0 < 10 ^ (e + 2)) by (apply Z.pow_pos_nonneg; lia).
    nia.
  - set (P := 10 ^ (-2 - e)) in *.
    assert (0 < P) as HP by (apply Z.pow_pos_nonneg; lia).
    assert (10 ^ prec * P <= c).
    { unfold P. rewrite <- Z.pow_add_r by (unfold prec; lia).
      etrans; [|exact Hlo]. apply Z.pow_le_mono_r; unfold prec; lia. }
    assert (10 ^ prec <= c / P) by (apply Z.div_le_lower_bound; lia).
    destruct (_ <=? _); lia.
Qed.

(** [quantize] on a finite decimal: it returns exactly when the rescaled
    coefficient has at most [prec] digits, and then returns it. *)
Lemma quantize_finite sg c e :
  let n := rescale_half_up (Z.of_N c) e (-2) in
  (n < 10 ^ prec -> quantize (DFin sg c e) = Ok (finite sg n (-2)))
  /\ (forall d, quantize (DFin sg c e) = Ok d ->
                n < 10 ^ prec /\ d = finite sg n (-2)).
Proof.
  cbn zeta. set (n := rescale_half_up (Z.of_N c) e (-2)).
  assert (0 <= n) as Hn0 by (apply rescale_nonneg; lia).
  assert (forall z, 0 <= z < 10 ^ prec -> fix_ sg z (-2) = Ok (finite sg z (-2)))
    as Hfix.
  { intros z Hz. apply fix_exact; [done|].
    unfold Etiny, Etop, Emax, Emin, prec. lia. }
  unfold quantize. cbn zeta.
  destruct (Z.eqb_spec (Z.of_N c) 0) as [Hc0|Hc0].
  { assert (n = 0) as Hn.
    { unfold n, rescale_half_up, round_half_up. rewrite Hc0.
      destruct (Z.leb_spec (-2) e); [lia|].
      assert (0 < 10 ^ (-2 - e)) by (apply Z.pow_pos_nonneg; lia).
      rewrite Z.mod_0_l, Z.div_0_l by lia.
      by rewrite (proj2 (Z.leb_gt _ _)) by lia. }
    rewrite Hn. rewrite Hfix by done.
    split; [done|]. intros d [= <-]. done. }
  fold n. split.
  - intros Hn.
    pose proof (rescale_small_adjusted (Z.of_N c) e ltac:(lia) Hn) as Hadj.
    pose proof (ndigits_le n prec ltac:(lia) ltac:(done)) as Hnd.
    pose proof (ndigits_pos n).
    rewrite (proj2 (Z.ltb_ge _ _)) by (unfold Emax; lia).
    rewrite (proj2 (Z.ltb_ge _ _)) by (unfold prec; lia).
    rewrite (proj2 (Z.ltb_ge _ _)) by (unfold Emax, prec in *; lia).
    rewrite (proj2 (Z.ltb_ge _ _)) by lia.
    by apply Hfix.
  - intros d.
    destruct (Emax <? e + ndigits (Z.of_N c) - 1); [done|].
    destruct (prec <? e + ndigits (Z.of_N c) - 1 - -2 + 1); [done|].
    destruct (Emax <? -2 + ndigits n - 1); [done|].
    destruct (Z.ltb_spec prec (ndigits n)) as [|Hnd]; [done|].
    assert (n < 10 ^ prec) as Hn.
    { destruct (Z.lt_ge_cases n (10 ^ prec)) as [|Hge]; [done|].
      pose proof (ndigits_gt n prec Hge ltac:(done)). lia. }
    rewrite Hfix by lia. by intros [= <-].
Qed.

Lemma cents_finite sg n : 0 <= n -> cents (finite sg n (-2)) = Some (signed sg n).
Proof. intros Hn. unfold finite, cents. cbn. by rewrite Z2N.id. Qed.

Lemma cents_inv d z :
  cents d = Some z ->
  exists sg c, d = DFin sg c (-2) /\ z = signed sg (Z.of_N c).
Proof.
  destruct d as [sg c e| |]; cbn; try done.
  destruct (Z.eqb_spec e (-2)) as [->|]; [|done].
  intros [= <-]. eauto.
Qed.

(** The product of two finite decimals, when it fits the context, is
    quantized to the specification's rounding of the exact product. *)
Lemma mul_quantize_fits s1 c1 e1 s2 c2 e2 :
  let x := (signed s1 (Z.of_N c1), e1) in
  let y := (signed s2 (Z.of_N c2), e2) in
  product_fits x y ->
  (Z.abs (spec_line x y) < 10 ^ prec ->
   exists d, rbind (mul (DFin s1 c1 e1) (DFin s2 c2 e2)) quantize = Ok d
             /\ cents d = Some (spec_line x y))
  /\ (forall d, rbind (mul (DFin s1 c1 e1) (DFin s2 c2 e2)) quantize = Ok d ->
                cents d = Some (spec_line x y)
                /\ Z.abs (spec_line x y) < 10 ^ prec).
Proof.
  cbn zeta. unfold product_fits, spec_line. cbn [fst snd].
  rewrite signed_mul. intros [Hc He].
  rewrite signed_abs in Hc by lia.
  unfold mul. cbn [check_nans].
  rewrite fix_exact by lia. cbn [rbind]. unfold finite.
  pose proof (quantize_finite (xorb s1 s2)
                (Z.to_N (Z.of_N c1 * Z.of_N c2)) (e1 + e2)) as [Hq1 Hq2].
  cbn zeta in Hq1, Hq2. rewrite Z2N.id in Hq1, Hq2 by lia.
  set (n := rescale_half_up (Z.of_N c1 * Z.of_N c2) (e1 + e2) (-2)) in *.
  assert (0 <= n) as Hn by (apply rescale_nonneg; lia).
  rewrite <- rescale_spec_round2 by lia. fold n.
  rewrite signed_abs by done.
  split.
  - intros Hlt. rewrite Hq1 by done. eexists. split; [done|].
    by apply cents_finite.
  - intros d Hd. destruct (Hq2 d Hd) as [Hlt ->].
    by rewrite cents_finite.
Qed.

(** The sum of two amounts in cents, when it has at most [prec] digits,
    is their exact sum. *)
Lemma add_cents a b za zb :
  cents a = Some za -> cents b = Some zb ->
  Z.abs (za + zb) < 10 ^ prec ->
  exists d, add a b = Ok d /\ cents d = Some (za + zb).
Proof.
  intros (sa & ca & -> & ->)%cents_inv (sb & cb & -> & ->)%cents_inv Hlt.
  unfold add. cbn [check_nans]. cbn zeta.
  replace (Z.min (-2) (-2)) with (-2) by lia.
  replace (-2 - -2) with 0 by lia. rewrite !Z.mul_1_r.
  set (v := signed sa (Z.of_N ca) + signed sb (Z.of_N cb)) in *.
  rewrite fix_exact; [|lia|unfold Etiny, Etop, Emax, Emin, prec; lia].
  eexists. split; [done|]. rewrite cents_finite by lia. f_equal.
  destruct (Z.eqb_spec v 0) as [->|Hv]; [by destruct (_ && _)|].
  destruct (Z.ltb_spec v 0); cbn; lia.
Qed.


End Arithmetic.

(** ** Totals on exact values *)

Section Exact.

Implicit Types (s : store) (a : addr) (items : list pyval) (lines : list Z).

Lemma exact_of_inv v z e :
  exact_of v = Some (z, e) ->
  exists sg c, Decimal_of_str v = Ok (DFin sg c e) /\ z = signed sg (Z.of_N c).
Proof.
  unfold exact_of. destruct (Decimal_of_str v) as [[sg c e'| |]|]; try done.
  intros [= <- <-]. eauto.
Qed.







(** What the loop has written when it returns: under every item, the
    line total computed from the item as it was at the start. *)
Lemma compute_lines_keeps_line items subtotal s r s' a line :
  compute_lines items subtotal s = Ret r s' ->
  line_of (deref s a) = Ok line ->
  deref s a !! "_line_total"%string = Some (PDec line) ->
  deref s' a !! "_line_total"%string = Some (PDec line).
Proof.
  revert subtotal s.
  induction items as [|it items IH]; intros subtotal s Hrun Hline Hcur.
  { cbn in Hrun. by injection Hrun as <- <-. }
  destruct (is_record_dec it) as [[b ->]|Hn].
  2:{ by rewrite compute_lines_not_record in Hrun. }
  rewrite compute_lines_record in Hrun.
  destruct (line_of (deref s b)) as [lb|] eqn:Hb; [|done].
  cbn zeta in Hrun. destruct (add subtotal lb) as [sub'|]; [|done].
  eapply IH; [exact Hrun|by rewrite line_of_set_line_total|].
  rewrite deref_set_field. case_decide as Hab; [|done].
  destruct Hab as [-> _]. congruence.
Qed.

Lemma compute_lines_writes items subtotal s r s' :
  compute_lines items subtotal s = Ret r s' ->
  Forall (fun it => exists a line,
            it = PRef a /\ line_of (deref s a) = Ok line
            /\ deref s' a !! "_line_total"%string = Some (PDec line))
    items.
Proof.
  revert subtotal s.
  induction items as [|it items IH]; intros subtotal s Hrun; [constructor|].
  destruct (is_record_dec it) as [[b ->]|Hn].
  2:{ by rewrite compute_lines_not_record in Hrun. }
  rewrite compute_lines_record in Hrun.
  destruct (line_of (deref s b)) as [lb|] eqn:Hb; [|done].
  cbn zeta in Hrun. destruct (add subtotal lb) as [sub'|]; [|done].
  constructor.
  - exists b, lb. split_and!; [done..|].
    eapply compute_lines_keeps_line; [exact Hrun| |].
    + by rewrite line_of_set_line_total.
    + rewrite deref_set_field. by rewrite decide_True.
  - eapply Forall_impl; [by eapply IH|]. cbn.
    intros it (a & line & -> & Hl & Hs'). exists a, line.
    by rewrite line_of_set_line_total in Hl.
Qed.




End Exact.

(** ** Relations between the totals *)

Section Relations.

Implicit Types (s : store) (a : addr) (items : list pyval).

Lemma fix_finite sg c e d : fix_ sg c e = Ok d -> is_finite d.
Proof.
  unfold fix_, finite, is_finite.
  repeat case_match; intros; simplify_eq; eauto.
Qed.

Lemma mul_finite x y d : is_finite x -> is_finite y -> mul x y = Ok d -> is_finite d.
Proof.
  intros (s1 & c1 & e1 & ->) (s2 & c2 & e2 & ->). unfold mul. cbn.
  apply fix_finite.
Qed.

Lemma add_finite x y d : is_finite x -> is_finite y -> add x y = Ok d -> is_finite d.
Proof.
  intros (s1 & c1 & e1 & ->) (s2 & c2 & e2 & ->). unfold add. cbn.
  apply fix_finite.
Qed.

(** A finite decimal is quantized to an amount in cents of at most
    [prec] digits. *)
Lemma quantize_finite_cents x d :
  is_finite x -> quantize x = Ok d ->
  exists z, cents d = Some z /\ Z.abs z < 10 ^ prec.
Proof.
  intros (sg & c & e & ->) Hd.
  destruct (quantize_finite sg c e) as [_ Hq]. cbn zeta in Hq.
  destruct (Hq d Hd) as [Hlt ->].
  pose proof (rescale_nonneg (Z.of_N c) e ltac:(lia)).
  eexists. split; [by apply cents_finite|]. by rewrite signed_abs.
Qed.

Lemma cents_is_finite d z : cents d = Some z -> is_finite d.
Proof. intros (sg & c & -> & _)%cents_inv. by eexists _, _, _. Qed.

Lemma exact_of_finite v r :
  exact_of v = Some r -> exists d, Decimal_of_str v = Ok d /\ is_finite d.
Proof.
  destruct r as [z e]. intros (sg & c & -> & _)%exact_of_inv.
  eexists. split; [done|]. by eexists _, _, _.
Qed.

Lemma line_of_numeric s a d :
  numeric_item s (PRef a) -> line_of (deref s a) = Ok d -> is_finite d.
Proof.
  intros (b & [= <-] & [q Hq] & [u Hu]).
  apply exact_of_finite in Hq as (dq & Hq & Fq).
  apply exact_of_finite in Hu as (du & Hu & Fu).
  unfold line_of. rewrite Hq, Hu. cbn [rbind].
  destruct (mul dq du) as [p|] eqn:Hp; [|done]. cbn [rbind]. intros Hd.
  destruct (quantize_finite_cents p d) as (z & Hz & _);
    eauto using mul_finite, cents_is_finite.
Qed.

Lemma numeric_item_set_line_total s a x it :
  numeric_item s it -> numeric_item (set_field s a "_line_total" x) it.
Proof.
  intros (b & -> & Hq & Hu). exists b.
  unfold item_qty, item_unit_price in *. by rewrite !deref_set_field_ne.
Qed.

(** On numeric items the running sum stays a finite decimal. *)
Lemma compute_lines_finite items acc s sub s' :
  Forall (numeric_item s) items -> is_finite acc ->
  compute_lines items acc s = Ret sub s' -> is_finite sub.
Proof.
  revert acc s.
  induction items as [|it items IH]; intros acc s Hall Hacc Hrun.
  { cbn in Hrun. by injection Hrun as <- _. }
  apply Forall_cons in Hall as [Hit Hall].
  pose proof Hit as (a & -> & _).
  rewrite compute_lines_record in Hrun.
  destruct (line_of (deref s a)) as [line|] eqn:Hline; [|done].
  cbn zeta in Hrun.
  destruct (add acc line) as [acc'|] eqn:Hadd; [|done].
  apply (IH acc' (set_field s a "_line_total" (PDec line)));
    [|by eauto using add_finite, line_of_numeric|exact Hrun].
  eapply Forall_impl; [exact Hall|].
  intros. by apply numeric_item_set_line_total.
Qed.

(** A coefficient above [prec] digits at exponent -2 is rounded to a
    higher exponent, and keeps 28 digits. *)
Lemma fix_rounds sg c d :
  10 ^ prec <= c -> fix_ sg c (-2) = Ok d ->
  exists c' e', d = DFin sg c' e' /\ -1 <= e' /\ 10 ^ 27 <= Z.of_N c'.
Proof.
  intros Hc. unfold fix_.
  assert (0 < c) as Hpos by (unfold prec in Hc; lia).
  rewrite (proj2 (Z.eqb_neq _ _)) by lia.
  pose proof (ndigits_gt c prec Hc ltac:(done)) as Hnd.
  destruct (ndigits_bounds c Hpos) as (_ & Hlo & _).
  destruct (Etop <? ndigits c + -2 - prec); [done|].
  replace (Z.max (ndigits c + -2 - prec) Etiny) with (ndigits c - 30)
    by (unfold Etiny, Emin, prec in *; lia).
  rewrite (proj2 (Z.ltb_lt _ _)) by (unfold prec in *; lia).
  replace (ndigits c - 30 - -2) with (ndigits c - 28) by lia.
  set (k := ndigits c - 28).
  assert (0 < 10 ^ k) as HP by (apply Z.pow_pos_nonneg; unfold prec in *; lia).
  assert (10 ^ 27 <= c / 10 ^ k) as Hq.
  { apply Z.div_le_lower_bound; [done|].
    rewrite Z.mul_comm, <- Z.pow_add_r by (unfold k, prec in *; lia).
    by replace (27 + k) with (ndigits c - 1) by (unfold k; lia). }
  set (coeff := if round_half_even _ _ _ then _ else _).
  assert (10 ^ 27 <= coeff) as Hcoeff by (unfold coeff; case_match; lia).
  destruct (Z.ltb_spec prec (ndigits coeff)) as [Hbig|Hsmall].
  - destruct (Etop <? _); [done|]. intros [= <-].
    eexists _, _. split; [reflexivity|].
    assert (10 ^ 27 <= coeff / 10).
    { assert (0 < coeff) by lia.
      destruct (ndigits_bounds coeff ltac:(done)) as (_ & Hlo' & _).
      assert (10 ^ 28 <= 10 ^ (ndigits coeff - 1))
        by (apply Z.pow_le_mono_r; unfold prec in *; lia).
      apply Z.div_le_lower_bound; lia. }
    unfold prec in *. rewrite Z2N.id by lia. lia.
  - destruct (Etop <? _); [done|]. intros [= <-].
    eexists _, _. split; [reflexivity|].
    unfold prec in *. rewrite Z2N.id by lia. lia.
Qed.

Lemma quantize_rejects_rounded sg c e :
  -1 <= e -> 10 ^ 27 <= Z.of_N c ->
  exists x, quantize (DFin sg c e) = Err x.
Proof.
  intros He Hc. unfold quantize. cbn zeta.
  rewrite (proj2 (Z.eqb_neq _ _)) by lia.
  pose proof (ndigits_gt (Z.of_N c) 27 Hc ltac:(done)).
  destruct (Emax <? _); [by eauto|].
  rewrite (proj2 (Z.ltb_lt _ _)) by (unfold prec; lia). by eauto.
Qed.

(** Two amounts in cents whose sum passes through [quantize] add up
    exactly, and the sum is left as it is. *)
Lemma add_quantize_cents (a b : Decimal) za zb d :
  cents a = Some za -> cents b = Some zb ->
  rbind (add a b) quantize = Ok d ->
  cents d = Some (za + zb) /\ add a b = Ok d.
Proof.
  intros Ha Hb Hd.
  destruct (Z.lt_ge_cases (Z.abs (za + zb)) (10 ^ prec)) as [Hlt|Hge].
  - destruct (add_cents a b za zb Ha Hb Hlt) as (t & Ht & Hct).
    rewrite Ht in Hd |- *. cbn [rbind] in Hd.
    apply cents_inv in Hct as (sg & c & -> & Hv).
    rewrite Hv, signed_abs in Hlt by lia.
    destruct (quantize_finite sg c (-2)) as [Hq _]. cbn zeta in Hq.
    assert (rescale_half_up (Z.of_N c) (-2) (-2) = Z.of_N c) as Hr.
    { unfold rescale_half_up. cbn. lia. }
    rewrite Hr in Hq. rewrite Hq in Hd by done. injection Hd as <-.
    unfold finite. rewrite N2Z.id. split; [|done].
    cbn. by rewrite Hv.
  - exfalso.
    apply cents_inv in Ha as (sa & ca & -> & ->).
    apply cents_inv in Hb as (sb & cb & -> & ->).
    unfold add in Hd. cbn [check_nans] in Hd. cbn zeta in Hd.
    replace (Z.min (-2) (-2)) with (-2) in Hd by lia.
    replace (-2 - -2) with 0 in Hd by lia. rewrite !Z.mul_1_r in Hd.
    destruct (fix_ _ _ _) as [t|] eqn:Ht; [|done]. cbn [rbind] in Hd.
    apply fix_rounds in Ht as (c' & e' & -> & He' & Hc'); [|done].
    destruct (quantize_rejects_rounded
                (if (signed sa (Z.of_N ca) + signed sb (Z.of_N cb) =? 0)
                 then (ca =? 0)%N && (cb =? 0)%N && sa && sb
                 else signed sa (Z.of_N ca) + signed sb (Z.of_N cb) <? 0)
                c' e' He' Hc') as [x Hx].
    congruence.
Qed.

Lemma eq_refl_finite sg c e : PyDecimal.eq (DFin sg c e) (DFin sg c e) = true.
Proof. unfold PyDecimal.eq. apply Z.eqb_refl. Qed.

(** C5, amended: on a record whose items and tax rate are finite
    numbers, the aggregates [compute_totals] returns are amounts in
    cents with total = subtotal + tax exactly: the sum is computed
    without rounding and [quantize] leaves it as it is, so [total ==
    subtotal + tax] holds.  The tax is the half-up rounding of the exact
    product subtotal * rate when that product fits the 28 digits of the
    context. *)
Theorem totals_add_up items tax_rate rate s dsub dtax dtotal s' :
  Forall (numeric_item s) items ->
  exact_of tax_rate = Some rate ->
  compute_totals items tax_rate s = Ret (dsub, dtax, dtotal) s' ->
  exists zsub ztax,
    cents dsub = Some zsub
    /\ cents dtax = Some ztax
    /\ cents dtotal = Some (zsub + ztax)
    /\ (exists sum, add dsub dtax = Ok sum /\ PyDecimal.eq dtotal sum = true)
    /\ (product_fits (zsub, -2) rate -> ztax = spec_tax zsub rate).
Proof.
  intros Hall Hrate. rewrite compute_totals_lines.
  destruct (compute_lines items (DFin false 0 (-2)) s) as [sub0 s0|] eqn:Hrun;
    [|done].
  pose proof (compute_lines_finite _ _ _ _ _ Hall
                ltac:(by eexists _, _, _) Hrun) as Hsub0.
  unfold totals_of.
  destruct (quantize sub0) as [sub|] eqn:Hq; [|done]. cbn [rbind].
  destruct (quantize_finite_cents sub0 sub Hsub0 Hq) as (zsub & Hzsub & _).
  destruct rate as [rz re].
  pose proof Hrate as (sr & cr & Hr & ->)%exact_of_inv.
  rewrite Hr. cbn [rbind].
  destruct (rbind (mul sub (DFin sr cr re)) quantize) as [tax|] eqn:Htax;
    [|done]. cbn [rbind].
  assert (exists ztax, cents tax = Some ztax) as [ztax Hztax].
  { destruct (mul sub (DFin sr cr re)) as [p|] eqn:Hp; [|done].
    cbn [rbind] in Htax.
    assert (is_finite p) as Hfin.
    { eapply mul_finite; [by eapply cents_is_finite| |exact Hp].
      by eexists _, _, _. }
    destruct (quantize_finite_cents p tax Hfin Htax) as (z & Hz & _).
    by eauto. }
  destruct (rbind (add sub tax) quantize) as [total|] eqn:Htot; [|done].
  cbn [rbind]. intros [= <- <- <- <-].
  destruct (add_quantize_cents sub tax zsub ztax total Hzsub Hztax Htot)
    as [Htotal Hadd].
  exists zsub, ztax. split_and!; try done.
  - exists total. split; [done|].
    apply cents_is_finite in Htotal as (sg & c & e & ->).
    apply eq_refl_finite.
  - intros Hfit.
    pose proof Hzsub as (ss & cs & -> & ->)%cents_inv.
    destruct (mul_quantize_fits ss cs (-2) sr cr re Hfit) as [_ Hinv].
    destruct (Hinv tax Htax) as [Hc _]. unfold spec_line in Hc.
    unfold spec_tax. cbn [fst snd] in *. congruence.
Qed.

Lemma totals_add_up_witness :
  exists dsub dtax dtotal zsub ztax,
    value_of (compute_totals demo_items (PStr "0.0825") demo_store)
      = inl (dsub, dtax, dtotal)
    /\ cents dsub = Some zsub
    /\ cents dtax = Some ztax
    /\ cents dtotal = Some (zsub + ztax)
    /\ ztax = spec_tax zsub (825, -4).
Proof.
  assert (returns (compute_totals demo_items (PStr "0.0825") demo_store) = true)
    as Hret by (vm_compute; reflexivity).
  destruct (compute_totals demo_items (PStr "0.0825") demo_store)
    as [[[dsub dtax] dtotal] s'|] eqn:E; [|discriminate Hret].
  destruct (totals_add_up demo_items (PStr "0.0825") (825, -4) demo_store
              dsub dtax dtotal s') as (zsub & ztax & H1 & H2 & H3 & _ & H5).
  - repeat constructor.
    + exists 3%positive. split_and!; [done|by eexists..].
    + exists 4%positive. split_and!; [done|by eexists..].
    + exists 4%positive. split_and!; [done|by eexists..].
  - reflexivity.
  - exact E.
  - exists dsub, dtax, dtotal, zsub, ztax.
    split_and!; [reflexivity|exact H1|exact H2|exact H3|].
    apply H5.
    assert (value_of (compute_totals demo_items (PStr "0.0825") demo_store)
            = inl (DFin false 12660000 (-2), DFin false 1044450 (-2),
                   DFin false 13704450 (-2))) as Hv
      by (vm_compute; reflexivity).
    rewrite E in Hv. injection Hv as -> _ _. injection H1 as <-.
    split; [reflexivity|unfold Etiny, Etop, Emax, Emin, prec; cbn; lia].
Defined.

End Relations.


(** C5, as stated, fails: one unit at 1.00 taxed at the rate
    0.00499999999999999999999999999995 gives the subtotal 1.00; the exact
    product 0.00499... rounds half up to 0.00, but the tax returned is
    0.01, the product having first been rounded to the 28 digits of the
    context. *)
Lemma tax_rounded_twice :
  numeric_item unit_store (PRef 3%positive)
  /\ exact_of (PStr long_price) = Some (499999999999999999999999999995, -32)
  /\ value_of (compute_totals [PRef 3%positive] (PStr long_price) unit_store)
     = inl (DFin false 100 (-2), DFin false 1 (-2), DFin false 101 (-2))
  /\ spec_tax 100 (499999999999999999999999999995, -32) = 0.
Proof.
  split_and!; [|vm_compute; reflexivity..].
  exists 3%positive. split_and!; [done|by eexists..].
Qed.



(** * Further properties of the module *)

(** ** validate_invoice_data *)

Lemma first_missing_None (d : pydict) (ks : list string) :
  first_missing d ks = None <-> Forall (fun k => is_Some (d !! k)) ks.
Proof.
  induction ks as [|k ks IH]; cbn [first_missing].
  { split; [constructor|done]. }
  destruct (d !! k) as [v|] eqn:Hk.
  - rewrite IH. split.
    + intros Hall. constructor; [by rewrite Hk|done].
    + by intros [_ Hall]%Forall_cons.
  - split; [done|]. intros [[v Hv] _]%Forall_cons. congruence.
Qed.

(** X1: [validate_invoice_data] returns exactly on the records that hold the
    four required keys with a list under "items"; every exception it raises
    is a ValueError (the lookup of "items" never raises KeyError). *)
Theorem validate_returns_iff (data : addr) (s : store) :
  (returns (validate_invoice_data data s) = true
   <-> Forall (fun k => is_Some (deref s data !! k)) required
       /\ exists l, deref s data !! "items"%string = Some (PList l))
  /\ forall e s', validate_invoice_data data s = Raise e s' ->
                  exists msg, e = ValueError msg.
Proof.
  rewrite validate_invoice_data_cases, <- first_missing_None.
  destruct (first_missing (deref s data) required) as [k|] eqn:Hm.
  { split; [|by intros e s' [= <- _]; eauto]. cbn. split; [done|by intros [? _]]. }
  assert (is_Some (deref s data !! "items"%string)) as [v Hv].
  { apply first_missing_None in Hm.
    do 3 apply Forall_cons in Hm as [_ Hm]. by apply Forall_cons in Hm as [? _]. }
  rewrite Hv. destruct v; cbn;
    try (split; [split; [done|by intros [_ [? [=]]]]|by intros e s' [= <- _]; eauto]).
  destruct (normalize_spec data s) as (s1 & -> & _). cbn.
  split; [|done]. split; [eauto|done].
Qed.

Lemma validate_returns_iff_witness :
  returns (validate_invoice_data 1%positive (store_of tuple_record)) = false
  /\ returns (validate_invoice_data 1%positive (store_of sample_record)) = true.
Proof.
  split.
  - destruct (returns _) eqn:E; [|reflexivity].
    apply (proj1 (validate_returns_iff 1%positive (store_of tuple_record)))
      in E as [_ [l Hl]].
    discriminate Hl.
  - apply (proj1 (validate_returns_iff 1%positive (store_of sample_record))).
    split; [|by exists []].
    repeat constructor; by eexists.
Defined.

Lemma setdefault_present (data : addr) (k : string) (v : pyval) (s : store) :
  is_Some (deref s data !! k) -> dict_setdefault data k v s = Ret tt s.
Proof. intros [w Hw]. unfold dict_setdefault. by rewrite Hw. Qed.

(** X2: validation is idempotent: validating the record that
    [validate_invoice_data] returned returns it again and leaves the store
    exactly as the first call left it. *)
Theorem validate_idempotent (data r : addr) (s s1 : store) :
  validate_invoice_data data s = Ret r s1 ->
  validate_invoice_data r s1 = Ret r s1.
Proof.
  rewrite validate_invoice_data_cases.
  destruct (first_missing (deref s data) required) eqn:Hm; [done|].
  destruct (deref s data !! "items"%string) as [v|] eqn:Hv; [|done].
  destruct (isinstance_list v) eqn:Hl; [|done].
  destruct (normalize_spec data s) as (s' & E & _ & L). rewrite E.
  intros [= <- <-].
  assert (forall k, is_Some (deref s data !! k) -> deref s' data !! k = deref s data !! k)
    as Hkeep.
  { intros k [w Hw]. by rewrite L, Hw. }
  rewrite validate_invoice_data_cases.
  assert (first_missing (deref s' data) required = None) as ->.
  { apply first_missing_None. apply first_missing_None in Hm.
    eapply Forall_impl; [exact Hm|]. cbn. intros k Hk. by rewrite Hkeep. }
  rewrite Hkeep, Hv, Hl by (by rewrite Hv).
  unfold normalize, mbind, M_bind.
  rewrite !setdefault_present; [done|..].
  all: rewrite L; case_match; by eexists.
Qed.

Lemma validate_idempotent_witness :
  exists s1,
    validate_invoice_data 1%positive (store_of sample_record) = Ret 1%positive s1
    /\ validate_invoice_data 1%positive s1 = Ret 1%positive s1.
Proof.
  assert (returns (validate_invoice_data 1%positive (store_of sample_record)) = true)
    as Hret by (vm_compute; reflexivity).
  destruct (validate_invoice_data 1%positive (store_of sample_record))
    as [r s1|] eqn:E; [|discriminate Hret].
  assert (value_of (validate_invoice_data 1%positive (store_of sample_record))
          = inl 1%positive) as Hr by (vm_compute; reflexivity).
  rewrite E in Hr. injection Hr as ->.
  exists s1. split; [reflexivity|].
  exact (validate_idempotent 1%positive 1%positive (store_of sample_record) s1 E).
Defined.

(** ** compute_totals *)




Lemma quantize_zero (sg : bool) (e : Z) : quantize (DFin sg 0 e) = Ok (DFin sg 0 (-2)).
Proof. reflexivity. Qed.







Lemma set_field_id (s : store) (a : addr) (k : string) (x : pyval) :
  deref s a !! k = Some x -> set_field s a k x = s.
Proof.
  unfold set_field, deref. intros Hx.
  destruct (s !! a) as [d|] eqn:Ha.
  - rewrite (lookup_total_correct _ _ _ Ha) in Hx |- *.
    rewrite (insert_id d) by done. by apply insert_id.
  - rewrite lookup_total_alt, Ha in Hx. cbn in Hx.
    by rewrite lookup_empty in Hx.
Qed.

Lemma line_of_frame (s s' : store) (a : addr) :
  (forall k, k <> "_line_total"%string -> deref s' a !! k = deref s a !! k) ->
  line_of (deref s' a) = line_of (deref s a).
Proof.
  intros Hk. unfold line_of, item_qty, item_unit_price. by rewrite !Hk.
Qed.

(** On items that already carry the line totals the loop computes, the loop
    leaves the store as it is. *)
Lemma compute_lines_fixed (items : list pyval) (acc : Decimal) (s : store) :
  Forall (fun it => exists a line,
            it = PRef a /\ line_of (deref s a) = Ok line
            /\ deref s a !! "_line_total"%string = Some (PDec line)) items ->
  store_after (compute_lines items acc s) = s.
Proof.
  intros Hall. revert acc.
  induction Hall as [|it items (a & line & -> & Hline & Hcur) _ IH]; intros acc.
  { done. }
  rewrite compute_lines_record, Hline. cbn zeta.
  rewrite (set_field_id _ _ _ _ Hcur).
  destruct (add acc line); [apply IH|done].
Qed.

(** X6: running [compute_totals] again on the store a first run left
    returns the same three totals and changes nothing: the line totals it
    writes are the ones already there. *)
Theorem compute_totals_again (items : list pyval) (tax_rate : pyval)
    (s s' : store) (r : Decimal * Decimal * Decimal) :
  compute_totals items tax_rate s = Ret r s' ->
  compute_totals items tax_rate s' = Ret r s'.
Proof.
  rewrite !compute_totals_lines.
  destruct (compute_lines items (DFin false 0 (-2)) s) as [sub s1|] eqn:Hrun;
    [|done].
  destruct (totals_of sub tax_rate) as [r1|] eqn:Ht; [|done].
  intros [= <- <-].
  pose proof (compute_lines_frame items (DFin false 0 (-2)) s) as [Hframe _].
  rewrite Hrun in Hframe. cbn in Hframe.
  assert (forall a, line_of (deref s1 a) = line_of (deref s a)) as Hline.
  { intros a. apply line_of_frame. intros k Hk. by apply Hframe. }
  pose proof (compute_lines_value items (DFin false 0 (-2)) s1 s
                ltac:(by intros a _; apply Hline)) as Hval.
  pose proof (compute_lines_fixed items (DFin false 0 (-2)) s1) as Hfix.
  rewrite Hrun in Hval.
  destruct (compute_lines items (DFin false 0 (-2)) s1) as [sub' s2|];
    cbn in Hval; [|done].
  injection Hval as ->. rewrite Ht. f_equal. apply Hfix.
  eapply Forall_impl; [exact (compute_lines_writes _ _ _ _ _ Hrun)|]. cbn.
  intros it (a & line & -> & Hl & Hs1). exists a, line. by rewrite Hline.
Qed.

Lemma compute_totals_again_witness :
  exists r s',
    compute_totals demo_items (PStr "0.0825") demo_store = Ret r s'
    /\ compute_totals demo_items (PStr "0.0825") s' = Ret r s'.
Proof.
  assert (returns (compute_totals demo_items (PStr "0.0825") demo_store) = true)
    as Hret by (vm_compute; reflexivity).
  destruct (compute_totals demo_items (PStr "0.0825") demo_store)
    as [r s'|] eqn:E; [|discriminate Hret].
  exists r, s'. split; [reflexivity|].
  exact (compute_totals_again demo_items (PStr "0.0825") demo_store s' r E).
Defined.

Lemma fix_nan_idem (sg : bool) (p : N) :
  fix_nan sg (Z.to_N (Z.of_N p mod 10 ^ prec)) = fix_nan sg p.
Proof.
  unfold fix_nan. do 2 f_equal.
  assert (0 < 10 ^ prec) by (by apply Z.pow_pos_nonneg).
  rewrite Z2N.id by (by apply Z.mod_pos_bound).
  by rewrite Z.mod_mod by lia.
Qed.

Lemma quantize_fix_nan (sg : bool) (p : N) :
  quantize (fix_nan sg p) = Ok (fix_nan sg p).
Proof. unfold fix_nan at 1. cbn [quantize]. by rewrite fix_nan_idem. Qed.






(** ** moneyfmt *)

Lemma quantize_idem (x y : Decimal) : quantize x = Ok y -> quantize y = Ok y.
Proof.
  destruct x as [sg c e|sg|sg [|] p]; try done.
  - intros Hy. destruct (quantize_finite sg c e) as [_ Hq]. cbn zeta in Hq.
    destruct (Hq y Hy) as [Hlt ->].
    pose proof (rescale_nonneg (Z.of_N c) e ltac:(lia)) as Hn.
    set (n := rescale_half_up (Z.of_N c) e (-2)) in *.
    destruct (quantize_finite sg (Z.to_N n) (-2)) as [Hq1 _]. cbn zeta in Hq1.
    assert (rescale_half_up (Z.of_N (Z.to_N n)) (-2) (-2) = n) as Hr.
    { unfold rescale_half_up. rewrite Z2N.id by done.
      change (-2 <=? -2) with true. change (10 ^ (-2 - -2)) with 1. cbv iota. lia. }
    rewrite Hr in Hq1. by apply Hq1.
  - cbn [quantize]. intros [= <-]. apply quantize_fix_nan.
Qed.

Lemma moneyfmt_quantized (H : host) (y : Decimal) :
  quantize y = Ok y -> exists text, moneyfmt H (PDec y) = Ok text.
Proof.
  intros Hy. unfold moneyfmt. cbn [Decimal_new rbind]. rewrite Hy.
  destruct (locale_currency H y); eauto.
Qed.

Lemma rbind_quantize_idem (r : result Decimal) (y : Decimal) :
  rbind r quantize = Ok y -> quantize y = Ok y.
Proof. destruct r as [x|]; [apply quantize_idem|done]. Qed.

Lemma line_of_quantized (d : pydict) (line : Decimal) :
  line_of d = Ok line -> quantize line = Ok line.
Proof.
  unfold line_of.
  destruct (Decimal_of_str (item_qty d)); [|done]. cbn [rbind].
  destruct (Decimal_of_str (item_unit_price d)); [|done]. cbn [rbind].
  apply rbind_quantize_idem.
Qed.

Lemma totals_of_quantized (sub0 : Decimal) (tax_rate : pyval)
    (sub tax total : Decimal) :
  totals_of sub0 tax_rate = Ok (sub, tax, total) ->
  quantize sub = Ok sub /\ quantize tax = Ok tax /\ quantize total = Ok total.
Proof.
  unfold totals_of.
  destruct (quantize sub0) as [x|] eqn:Hx; [|done]. cbn [rbind].
  destruct (Decimal_of_str tax_rate) as [r|]; [|done]. cbn [rbind].
  destruct (rbind (mul x r) quantize) as [t|] eqn:Ht; [|done]. cbn [rbind].
  destruct (rbind (add x t) quantize) as [u|] eqn:Hu; [|done]. cbn [rbind].
  intros [= <- <- <-].
  split_and!; [by eapply quantize_idem|by eapply rbind_quantize_idem..].
Qed.

(** X9: what [compute_totals] returns and writes can always be formatted:
    [moneyfmt] returns a text for the subtotal, the tax, the total and the
    line total of every item, whatever the host's locale does. *)
Theorem moneyfmt_of_totals (H : host) (items : list pyval) (tax_rate : pyval)
    (s s' : store) (sub tax total : Decimal) :
  compute_totals items tax_rate s = Ret (sub, tax, total) s' ->
  (exists text, moneyfmt H (PDec sub) = Ok text)
  /\ (exists text, moneyfmt H (PDec tax) = Ok text)
  /\ (exists text, moneyfmt H (PDec total) = Ok text)
  /\ Forall (fun it => exists a d text,
               it = PRef a
               /\ deref s' a !! "_line_total"%string = Some (PDec d)
               /\ moneyfmt H (PDec d) = Ok text) items.
Proof.
  rewrite compute_totals_lines.
  destruct (compute_lines items (DFin false 0 (-2)) s) as [sub0 s0|] eqn:Hrun;
    [|done].
  destruct (totals_of sub0 tax_rate) as [[[x y] z]|] eqn:Ht; [|done].
  intros [= <- <- <- <-].
  destruct (totals_of_quantized _ _ _ _ _ Ht) as (Hx & Hy & Hz).
  split_and!; try by apply moneyfmt_quantized.
  eapply Forall_impl; [exact (compute_lines_writes _ _ _ _ _ Hrun)|]. cbn.
  intros it (a & line & -> & Hline & Hs0).
  destruct (moneyfmt_quantized H line (line_of_quantized _ _ Hline)) as [text Ht'].
  by exists a, line, text.
Qed.

Lemma moneyfmt_of_totals_witness :
  exists sub tax total,
    value_of (compute_totals demo_items (PStr "0.0825") demo_store)
      = inl (sub, tax, total)
    /\ (exists text, moneyfmt plain_host (PDec sub) = Ok text)
    /\ (exists text, moneyfmt plain_host (PDec tax) = Ok text)
    /\ (exists text, moneyfmt plain_host (PDec total) = Ok text).
Proof.
  assert (returns (compute_totals demo_items (PStr "0.0825") demo_store) = true)
    as Hret by (vm_compute; reflexivity).
  destruct (compute_totals demo_items (PStr "0.0825") demo_store)
    as [[[sub tax] total] s'|] eqn:E; [|discriminate Hret].
  destruct (moneyfmt_of_totals plain_host demo_items (PStr "0.0825") demo_store
              s' sub tax total E) as (H1 & H2 & H3 & _).
  exists sub, tax, total. split_and!; [reflexivity|exact H1|exact H2|exact H3].
Defined.

(** X10: [moneyfmt] formats an int exactly when its magnitude is below
    10^26; from 10^26 on, the quantized amount would need more than 28
    digits and the call raises its ValueError. *)
Theorem moneyfmt_int_bound (H : host) (n : Z) :
  (exists text, moneyfmt H (PInt n) = Ok text) <-> Z.abs n < 10 ^ 26.
Proof.
  unfold moneyfmt. cbn [Decimal_new rbind]. unfold from_int, finite.
  destruct (quantize_finite (n <? 0) (Z.to_N (Z.abs n)) 0) as [Hq1 Hq2].
  cbn zeta in Hq1, Hq2. rewrite Z2N.id in Hq1, Hq2 by lia.
  assert (rescale_half_up (Z.abs n) 0 (-2) = Z.abs n * 100) as Hr
    by reflexivity.
  rewrite Hr in Hq1, Hq2.
  change (10 ^ prec) with (10 ^ 26 * 100) in Hq1, Hq2.
  split.
  - intros [text Ht].
    destruct (quantize (DFin (n <? 0) (Z.to_N (Z.abs n)) 0)) as [amt|] eqn:Hamt;
      [|done].
    destruct (Hq2 amt eq_refl) as [Hlt _]. lia.
  - intros Hlt. rewrite Hq1 by lia.
    destruct (locale_currency H _); eauto.
Qed.

Lemma moneyfmt_int_bound_witness :
  exists text, moneyfmt plain_host (PInt 125000) = Ok text.
Proof.
  apply (proj2 (moneyfmt_int_bound plain_host 125000)). reflexivity.
Defined.

(** X11: [moneyfmt] does not reject a quiet NaN: it returns a text for it,
    while an infinity and a signaling NaN raise its ValueError. *)
Theorem moneyfmt_special_values (H : host) :
  (forall sg p, exists text, moneyfmt H (PDec (DNaN sg false p)) = Ok text)
  /\ (forall sg, moneyfmt H (PDec (DInf sg))
                 = Err (ValueError "Amount must be numeric"))
  /\ (forall sg p, moneyfmt H (PDec (DNaN sg true p))
                   = Err (ValueError "Amount must be numeric")).
Proof.
  split_and!; [|done..].
  intros sg p. unfold moneyfmt. cbn.
  destruct (locale_currency H _); eauto.
Qed.

(** ** generate_invoice *)

Lemma validate_returns_argument (data r : addr) (s s1 : store) :
  validate_invoice_data data s = Ret r s1 -> r = data.
Proof.
  rewrite validate_invoice_data_cases.
  destruct (first_missing _ _); [done|].
  destruct (deref s data !! "items"%string) as [v|]; [|done].
  destruct (isinstance_list v); [|done].
  destruct (normalize_spec data s) as (s' & -> & _). by intros [= <- _].
Qed.

(** What validation leaves of the store: every key that has no default, and
    every dict other than the record. *)
Lemma validate_frame (data : addr) (s : store) (a : addr) (k : string) :
  a <> data \/ spec_default k = None ->
  deref (store_after (validate_invoice_data data s)) a !! k = deref s a !! k.
Proof.
  intros Hak. rewrite validate_invoice_data_cases.
  destruct (first_missing _ _); [done|].
  destruct (deref s data !! "items"%string) as [v|]; [|done].
  destruct (isinstance_list v); [|done].
  destruct (normalize_spec data s) as (s' & -> & F & L). cbn.
  destruct (decide (a = data)) as [->|Hne].
  - destruct Hak as [|Hk]; [done|]. rewrite L, Hk. by destruct (deref s data !! k).
  - unfold deref. by rewrite !lookup_total_alt, F.
Qed.

(** [generate_invoice] is [invoice_totals] followed by the header blocks and
    the item rows. *)
Lemma generate_invoice_totals (H : host) (data : addr) (s : store) :
  generate_invoice H data s =
    match invoice_totals data s with
    | Raise e s' => Raise e s'
    | Ret (items, _) s' =>
        match layout_header H s' data with
        | Some e => Raise e s'
        | None => table_rows H items s'
        end
    end.
Proof.
  unfold generate_invoice, invoice_totals.
  unfold mbind at 1 6, M_bind at 1 6.
  destruct (validate_invoice_data data s) as [r s1|] eqn:Hv; [|done].
  apply validate_returns_argument in Hv as ->.
  unfold mbind at 1 5, M_bind at 1 5.
  destruct (dict_getitem data "items" s1) as [v s2|]; [|done].
  unfold mbind at 1 4, M_bind at 1 4.
  destruct (py_get (PRef data) "tax_rate" (PFloat "0.0") s2) as [t s3|]; [|done].
  unfold mbind at 1 3, M_bind at 1 3.
  destruct (compute_totals (list_items v) t s3) as [r s4|]; [|done].
  unfold mbind, M_bind, mret, M_ret.
  by destruct (layout_header H s4 data).
Qed.

Lemma table_row_inv (H : host) (it : pyval) (s s1 : store) (r : row H) :
  table_row H it s = Ret r s1 ->
  s1 = s /\ exists a, it = PRef a /\ row_qty H r = item_qty (deref s a).
Proof.
  destruct it as [| | | | | | | |a]; try done.
  unfold table_row, mbind, M_bind, py_get, item_qty. cbn.
  destruct (default PNone (deref s a !! "_line_total"%string)); cbn;
    repeat (match goal with
            | |- context [lift ?x] => destruct x; cbn; try done
            end);
    intros [= <- <-]; eauto.
Qed.

Lemma table_row_store (H : host) (it : pyval) (s : store) :
  store_after (table_row H it s) = s.
Proof.
  destruct (table_row H it s) as [r s1|e s1] eqn:E.
  { by destruct (table_row_inv _ _ _ _ _ E) as [-> _]. }
  destruct it as [| | | | | | | |a]; try by injection E as _ <-.
  revert E. unfold table_row, mbind, M_bind, py_get. cbn.
  destruct (default PNone (deref s a !! "_line_total"%string)); cbn;
    repeat (match goal with
            | |- context [lift ?x] => destruct x; cbn; try done
            end);
    by intros [= _ <-].
Qed.

Lemma table_rows_store (H : host) (items : list pyval) (s : store) :
  store_after (table_rows H items s) = s.
Proof.
  induction items as [|it items IH]; [done|]. cbn [table_rows].
  unfold mbind at 1, M_bind at 1.
  pose proof (table_row_store H it s) as Hrow.
  destruct (table_row H it s) as [r s1|e s1]; cbn in Hrow; subst s1; [|done].
  unfold mbind, M_bind.
  destruct (table_rows H items s) as [rs s2|e s2]; cbn in IH; by subst s2.
Qed.

Lemma table_rows_qty (H : host) (items : list pyval) (s s' : store)
    (rows : list (row H)) :
  table_rows H items s = Ret rows s' ->
  Forall2 (fun it r => exists a, it = PRef a /\ row_qty H r = item_qty (deref s a))
    items rows.
Proof.
  revert rows s'. induction items as [|it items IH]; intros rows s'; cbn.
  { intros [= <- _]. constructor. }
  unfold mbind at 1, M_bind at 1.
  destruct (table_row H it s) as [r s1|] eqn:Er; [|done].
  destruct (table_row_inv _ _ _ _ _ Er) as [-> Hr].
  unfold mbind, M_bind.
  destruct (table_rows H items s) as [rs s2|] eqn:Ers; [|done].
  intros [= <- _]. constructor; [done|]. by eapply IH.
Qed.

Lemma compute_totals_frame (items : list pyval) (tax_rate : pyval) (s : store)
    (a : addr) (k : string) :
  k <> "_line_total"%string ->
  deref (store_after (compute_totals items tax_rate s)) a !! k = deref s a !! k.
Proof.
  intros Hk. rewrite compute_totals_store.
  by destruct (compute_lines_frame items (DFin false 0 (-2)) s) as [F _]; apply F.
Qed.

(** X12: whatever [generate_invoice] does, returning or raising, the only
    keys it has written are "_line_total" and, on the record itself, the
    three keys that have a default: every other key of every dict of the
    store reads as before. *)
Theorem generate_invoice_writes (H : host) (data : addr) (s : store)
    (a : addr) (k : string) :
  k <> "_line_total"%string ->
  a <> data \/ spec_default k = None ->
  deref (store_after (generate_invoice H data s)) a !! k = deref s a !! k.
Proof.
  intros Hk Hak. rewrite generate_invoice_totals. unfold invoice_totals.
  pose proof (validate_frame data s a k Hak) as Hval.
  unfold mbind at 1, M_bind at 1.
  destruct (validate_invoice_data data s) as [r s1|e s1]; cbn in Hval; [|done].
  unfold mbind at 1, M_bind at 1, dict_getitem.
  destruct (deref s1 r !! "items"%string) as [v|]; [|done].
  unfold mbind at 1, M_bind at 1, py_get.
  unfold mbind, M_bind.
  match goal with
  | |- context [compute_totals ?i ?t s1] =>
      pose proof (compute_totals_frame i t s1 a k Hk) as Hframe;
      destruct (compute_totals i t s1) as [t' s2|e s2]
  end; cbn in Hframe; rewrite Hval in Hframe; [|done].
  unfold mret, M_ret.
  destruct (layout_header H s2 data); [done|].
  by rewrite table_rows_store.
Qed.

Lemma generate_invoice_writes_witness :
  deref (store_after (generate_invoice plain_host 1%positive demo_store))
    4%positive !! "unit_price"%string = Some (PStr "200.00").
Proof.
  rewrite (generate_invoice_writes plain_host 1%positive demo_store 4%positive
             "unit_price"%string); [reflexivity|discriminate|].
  left. discriminate.
Defined.

(** X13: when [generate_invoice] returns, the table has one row per item of
    the record, in the order of the list, and each row shows the quantity
    its item had when the call began (0 for an item without one). *)
Theorem generate_invoice_rows_in_order (H : host) (data : addr) (s s' : store)
    (rows : list (row H)) :
  generate_invoice H data s = Ret rows s' ->
  exists items,
    deref s data !! "items"%string = Some (PList items)
    /\ Forall2 (fun it r => exists a, it = PRef a
                                      /\ row_qty H r = item_qty (deref s a))
         items rows.
Proof.
  rewrite generate_invoice_totals. unfold invoice_totals.
  unfold mbind at 1, M_bind at 1.
  destruct (validate_invoice_data data s) as [r s1|] eqn:Hv; [|done].
  pose proof (validate_returns_argument _ _ _ _ Hv) as ->.
  assert (forall a k, spec_default k = None -> deref s1 a !! k = deref s a !! k)
    as Hs1.
  { intros a k Hk. pose proof (validate_frame data s a k (or_intror Hk)) as Hf.
    by rewrite Hv in Hf. }
  unfold mbind at 1, M_bind at 1, dict_getitem.
  destruct (deref s1 data !! "items"%string) as [v|] eqn:Hitems; [|done].
  rewrite Hs1 in Hitems by done.
  assert (isinstance_list v = true) as Hlist.
  { revert Hv. rewrite validate_invoice_data_cases.
    destruct (first_missing _ _); [done|]. rewrite Hitems.
    by destruct (isinstance_list v). }
  destruct v as [| | | | | |items| |]; try done. cbn [list_items].
  unfold mbind at 1, M_bind at 1, py_get.
  unfold mbind, M_bind.
  match goal with
  | |- context [compute_totals items ?t s1] =>
      pose proof (fun a => compute_totals_frame items t s1 a "qty") as Hframe;
      destruct (compute_totals items t s1) as [t' s2|]
  end; cbn in Hframe; [|done].
  unfold mret, M_ret.
  destruct (layout_header H s2 data); [done|]. intros Hrows.
  exists items. split; [done|].
  eapply Forall2_impl; [exact (table_rows_qty _ _ _ _ _ Hrows)|]. cbn.
  intros it r (a & -> & Hq). exists a. split; [done|].
  rewrite Hq. unfold item_qty. by rewrite Hframe, Hs1.
Qed.

Lemma generate_invoice_rows_in_order_witness :
  exists rows,
    value_of (generate_invoice plain_host 1%positive demo_store) = inl rows
    /\ Forall2 (fun it r => exists a, it = PRef a
                  /\ row_qty plain_host r = item_qty (deref demo_store a))
         demo_items rows.
Proof.
  assert (returns (generate_invoice plain_host 1%positive demo_store) = true)
    as Hret by (vm_compute; reflexivity).
  destruct (generate_invoice plain_host 1%positive demo_store)
    as [rows s'|] eqn:E; [|discriminate Hret].
  destruct (generate_invoice_rows_in_order plain_host 1%positive demo_store s'
              rows E) as (items & Hitems & Hall).
  exists rows. split; [reflexivity|].
  assert (deref demo_store 1%positive !! "items"%string = Some (PList demo_items))
    as Hdemo by (vm_compute; reflexivity).
  rewrite Hdemo in Hitems. injection Hitems as <-. exact Hall.
Defined.




(** With a tax rate that reads as a positive zero, the total is the
    subtotal, and the tax of a finite subtotal is a zero of its sign. *)
Lemma totals_of_zero_rate (x : Decimal) (tax_rate : pyval) (er : Z)
    (sub tax total : Decimal) :
  Decimal_of_str tax_rate = Ok (DFin false 0 er) ->
  totals_of x tax_rate = Ok (sub, tax, total) ->
  total = sub /\ forall sg c e, sub = DFin sg c e -> tax = DFin sg 0 (-2).
Proof.
  intros Hrate. unfold totals_of.
  destruct (quantize x) as [q|] eqn:Hq; [|done]. cbn [rbind].
  rewrite Hrate. cbn [rbind].
  pose proof (quantize_idem _ _ Hq) as Hqq.
  destruct q as [sg c e|sg|sg [|] p]; try done.
  - destruct (quantize_finite sg c e) as [_ Hfin]. cbn zeta in Hfin.
    destruct (Hfin _ Hqq) as [Hlt Heq]. unfold finite in Heq.
    injection Heq as Hc He. subst e.
    assert (rescale_half_up (Z.of_N c) (-2) (-2) = Z.of_N c) as Hr.
    { unfold rescale_half_up. change (-2 <=? -2) with true.
      change (10 ^ (-2 - -2)) with 1. cbv iota. lia. }
    rewrite Hr in Hlt. clear Hc Hr Hfin.
    unfold mul. cbn [check_nans]. change (Z.of_N 0) with 0.
    rewrite Z.mul_0_r, xorb_false_r. unfold fix_ at 1.
    change (0 =? 0) with true. cbv iota.
    unfold finite. change (Z.to_N 0) with 0%N. cbn [rbind].
    rewrite quantize_zero. cbn [rbind].
    assert (add (DFin sg c (-2)) (DFin sg 0 (-2)) = Ok (DFin sg c (-2))) as ->.
    { unfold add. cbn [check_nans]. cbn zeta.
      change (Z.min (-2) (-2)) with (-2). change (10 ^ (-2 - -2)) with 1.
      change (Z.of_N 0 * 1) with 0. rewrite Z.mul_1_r.
      assert (signed sg 0 = 0) as -> by (by destruct sg).
      rewrite Z.add_0_r.
      rewrite fix_exact;
        [|destruct sg; cbn [signed]; lia
         |unfold Etiny, Etop, Emax, Emin, prec; lia].
      unfold finite. f_equal. f_equal.
      - destruct (N.eqb_spec c 0) as [->|Hne].
        + by destruct sg.
        + rewrite (proj2 (Z.eqb_neq _ _)) by (destruct sg; cbn [signed]; lia).
          destruct sg; cbn [signed]; lia.
      - destruct sg; cbn [signed]; lia. }
    cbn [rbind]. rewrite Hqq. cbn [rbind].
    intros [= <- <- <-]. split; [done|]. by intros ? ? ? [= <- _ _].
  - cbn [quantize] in Hqq. injection Hqq as Hp.
    unfold mul. cbn [check_nans rbind]. unfold fix_nan at 1. rewrite Hp.
    cbn [quantize rbind]. unfold fix_nan at 1. rewrite Hp.
    unfold add. cbn [check_nans rbind]. unfold fix_nan at 1. rewrite Hp.
    cbn [quantize rbind]. unfold fix_nan at 1. rewrite Hp.
    unfold fix_nan. rewrite ?Hp.
    intros [= <- <- <-]. done.
Qed.



(** X16: a record that carries no tax rate is invoiced without tax.  When
    [generate_invoice] gets as far as its totals on a record without the
    key "tax_rate", the total is the subtotal and the tax of a finite
    subtotal is zero: the default [validate_invoice_data] fills in is the
    rate [compute_totals] reads. *)
Theorem generate_invoice_untaxed_by_default (data : addr) (s s' : store)
    (items : list pyval) (sub tax total : Decimal) :
  deref s data !! "tax_rate"%string = None ->
  invoice_totals data s = Ret (items, (sub, tax, total)) s' ->
  total = sub /\ forall sg c e, sub = DFin sg c e -> tax = DFin sg 0 (-2).
Proof.
  intros Hrate. unfold invoice_totals.
  unfold mbind at 1, M_bind at 1. rewrite validate_invoice_data_cases.
  destruct (first_missing _ _); [done|].
  destruct (deref s data !! "items"%string) as [v|]; [|done].
  destruct (isinstance_list v); [|done].
  destruct (normalize_spec data s) as (s1 & -> & _ & L).
  specialize (L "tax_rate"%string). rewrite Hrate in L.
  change (spec_default "tax_rate") with (Some (PFloat "0.0")) in L.
  unfold mbind at 1, M_bind at 1, dict_getitem.
  destruct (deref s1 data !! "items"%string) as [v1|]; [|done].
  unfold mbind at 1, M_bind at 1, py_get. rewrite L.
  cbn [default from_option id]. unfold mbind, M_bind.
  rewrite compute_totals_lines.
  destruct (compute_lines (list_items v1) (DFin false 0 (-2)) s1) as [x s2|];
    [|done].
  destruct (totals_of x (PFloat "0.0")) as [[[sub1 tax1] total1]|] eqn:Ht;
    [|done].
  unfold mret, M_ret. intros [= _ -> -> -> _].
  by apply (totals_of_zero_rate x (PFloat "0.0") (-1)).
Qed.

Lemma generate_invoice_untaxed_by_default_witness :
  exists items sub tax total,
    value_of (invoice_totals 1%positive demo_store)
      = inl (items, (sub, tax, total))
    /\ total = sub
    /\ forall sg c e, sub = DFin sg c e -> tax = DFin sg 0 (-2).
Proof.
  assert (returns (invoice_totals 1%positive demo_store) = true)
    as Hret by (vm_compute; reflexivity).
  destruct (invoice_totals 1%positive demo_store)
    as [[items [[sub tax] total]] s'|] eqn:E; [|discriminate Hret].
  exists items, sub, tax, total. split; [reflexivity|].
  apply (generate_invoice_untaxed_by_default 1%positive demo_store s' items
           sub tax total);
    [vm_compute; reflexivity|exact E].
Defined.

(** ** generate_invoice, called again *)

Lemma validate_normalized (data : addr) (s : store) (v : pyval) :
  first_missing (deref s data) required = None ->
  deref s data !! "items"%string = Some v ->
  isinstance_list v = true ->
  (forall k, is_Some (spec_default k) -> is_Some (deref s data !! k)) ->
  validate_invoice_data data s = Ret data s.
Proof.
  intros Hm Hv Hl Hd. rewrite validate_invoice_data_cases, Hm, Hv, Hl.
  unfold normalize, mbind, M_bind.
  rewrite !setdefault_present; [done|..]; apply Hd; by eexists.
Qed.

Lemma compute_lines_rerun (items : list pyval) (acc sub : Decimal)
    (s s1 : store) :
  compute_lines items acc s = Ret sub s1 ->
  compute_lines items acc s1 = Ret sub s1.
Proof.
  intros Hrun.
  pose proof (compute_lines_frame items acc s) as [Hframe _].
  rewrite Hrun in Hframe. cbn in Hframe.
  assert (forall a, line_of (deref s1 a) = line_of (deref s a)) as Hline.
  { intros a. apply line_of_frame. intros k Hk. by apply Hframe. }
  pose proof (compute_lines_value items acc s1 s
                ltac:(by intros a _; apply Hline)) as Hval.
  pose proof (compute_lines_fixed items acc s1) as Hfix.
  rewrite Hrun in Hval.
  destruct (compute_lines items acc s1) as [sub' s2|]; cbn in Hval; [|done].
  injection Hval as ->. f_equal. apply Hfix.
  eapply Forall_impl; [exact (compute_lines_writes _ _ _ _ _ Hrun)|]. cbn.
  intros it (a & line & -> & Hl & Hs1). exists a, line. by rewrite Hline.
Qed.

(** X17: [generate_invoice] can be called again on the record it has
    processed: in the store a call that returned has left, a second call
    returns the same rows and changes nothing, the defaults and the line
    totals being already in place. *)
Theorem generate_invoice_again (H : host) (data : addr) (s s' : store)
    (rows : list (row H)) :
  generate_invoice H data s = Ret rows s' ->
  generate_invoice H data s' = Ret rows s'.
Proof.
  intros Hrun. rewrite generate_invoice_totals in Hrun.
  unfold invoice_totals in Hrun. unfold mbind at 1, M_bind at 1 in Hrun.
  destruct (validate_invoice_data data s) as [r s1|] eqn:Hv; [|done].
  pose proof (validate_returns_argument _ _ _ _ Hv) as ->.
  rewrite validate_invoice_data_cases in Hv.
  destruct (first_missing (deref s data) required) eqn:Hm; [done|].
  destruct (deref s data !! "items"%string) as [v|] eqn:Hitems; [|done].
  destruct (isinstance_list v) eqn:Hl; [|done].
  destruct (normalize_spec data s) as (s1' & E & _ & L).
  rewrite E in Hv. injection Hv as ->.
  assert (deref s1 data !! "items"%string = Some v) as Hitems1.
  { by rewrite L, Hitems. }
  unfold mbind at 1, M_bind at 1, dict_getitem in Hrun. rewrite Hitems1 in Hrun.
  unfold mbind at 1, M_bind at 1, py_get in Hrun.
  set (rate := default (PFloat "0.0") (deref s1 data !! "tax_rate"%string)) in *.
  unfold mbind, M_bind in Hrun.
  destruct (compute_totals (list_items v) rate s1) as [t s2|] eqn:Ht; [|done].
  unfold mret, M_ret in Hrun.
  destruct (layout_header H s2 data) eqn:Hh; [done|].
  pose proof (table_rows_store H (list_items v) s2) as Hst.
  rewrite Hrun in Hst. cbn in Hst. subst s'.
  assert (forall k, k <> "_line_total"%string ->
                    deref s2 data !! k = deref s1 data !! k) as Hf.
  { intros k Hk.
    pose proof (compute_totals_frame (list_items v) rate s1 data k Hk) as F.
    by rewrite Ht in F. }
  assert (forall k, k <> "_line_total"%string -> is_Some (deref s data !! k) ->
                    is_Some (deref s2 data !! k)) as Hkeep.
  { intros k Hk [w Hw]. rewrite Hf, L, Hw by done. by eexists. }
  rewrite generate_invoice_totals. unfold invoice_totals.
  unfold mbind at 1, M_bind at 1.
  rewrite (validate_normalized data s2 v).
  - unfold mbind at 1, M_bind at 1, dict_getitem. rewrite Hf, Hitems1 by done.
    unfold mbind at 1, M_bind at 1, py_get. rewrite Hf by done. fold rate.
    unfold mbind, M_bind.
    assert (compute_totals (list_items v) rate s2 = Ret t s2) as ->.
    { revert Ht. rewrite !compute_totals_lines.
      destruct (compute_lines (list_items v) (DFin false 0 (-2)) s1)
        as [sub s3|] eqn:Hc; [|done].
      destruct (totals_of sub rate) as [t'|] eqn:Htot; [|done].
      intros [= <- <-]. by rewrite (compute_lines_rerun _ _ _ _ _ Hc), Htot. }
    unfold mret, M_ret. by rewrite Hh.
  - apply first_missing_None. apply first_missing_None in Hm.
    unfold required in *.
    repeat (apply Forall_cons in Hm as [? Hm]).
    repeat constructor; by apply Hkeep.
  - by rewrite Hf, Hitems1.
  - exact Hl.
  - intros k [d Hd].
    assert (k <> "_line_total"%string) as Hk by (by intros ->).
    rewrite Hf, L, Hd by done. case_match; by eexists.
Qed.

Lemma generate_invoice_again_witness :
  exists rows s',
    generate_invoice plain_host 1%positive demo_store = Ret rows s'
    /\ generate_invoice plain_host 1%positive s' = Ret rows s'.
Proof.
  assert (returns (generate_invoice plain_host 1%positive demo_store) = true)
    as Hret by (vm_compute; reflexivity).
  destruct (generate_invoice plain_host 1%positive demo_store)
    as [rows s'|] eqn:E; [|discriminate Hret].
  exists rows, s'. split; [reflexivity|].
  exact (generate_invoice_again plain_host 1%positive demo_store s' rows E).
Defined.

(** ** compute_totals and the order of the items *)

Lemma of_cents_cents (z : Z) : cents (of_cents z) = Some z.
Proof.
  unfold of_cents, cents. change (-2 =? -2) with true. cbv iota.
  rewrite Z2N.id by lia. f_equal.
  destruct (Z.ltb_spec z 0); cbn [signed]; lia.
Qed.






(** ** The exceptions of compute_totals *)





(** ** The text of moneyfmt *)



